(** * Bravio: the interaction state machine of the voice assistant

    A shallow embedding of [src/index.tsx]: the [App] component's state, its
    event handlers ([handleResult], [handleEnd], [handleError],
    [handleOrbClick], [handleTextSubmit]), the command dispatcher
    ([processCommand]) and the synthesis wrapper ([speakAndDisplay]).

    Modelling conventions.
    - A JavaScript string is a [string] of 8-bit characters read as the
      code points U+0000..U+00FF; [trim] and [toLowerCase] follow ECMAScript
      on that range.
    - React state is a record; a handler is a computation that reads the
      state of the render it was created in and applies its setters in order.
    - The platform objects (speech recognition, speech synthesis, the remote
      chat session, the console) are black boxes: a call to one of them is
      recorded as an [Effect]; what they answer is read from an [Env].
    - [try]/[catch]/[throw] and [await] are kept: a computation ends
      normally, by a thrown value, or stays suspended on a promise that
      never settles. *)

From Stdlib Require Import Bool Arith Lia List Ascii String.
From Stdlib Require QArith.
Import ListNotations.
Local Open Scope string_scope.
Local Open Scope list_scope.
Local Open Scope nat_scope.

(* ================================================================== *)
(** ** JavaScript string primitives used by the component *)
(* ================================================================== *)

Module JsString.

(** White space and line terminators of ECMAScript below U+0100:
    TAB, LF, VT, FF, CR, SPACE and NO-BREAK SPACE. *)
Definition isWhiteSpace (c : ascii) : bool :=
  let n := nat_of_ascii c in
  ((9 <=? n) && (n <=? 13)) || (n =? 32) || (n =? 160).

(** [String.prototype.toLowerCase] on one code point below U+0100:
    A-Z, and the Latin-1 capitals U+00C0..U+00DE except the
    multiplication sign U+00D7. *)
Definition toLowerChar (c : ascii) : ascii :=
  let n := nat_of_ascii c in
  if ((65 <=? n) && (n <=? 90))
     || ((192 <=? n) && (n <=? 214))
     || ((216 <=? n) && (n <=? 222))
  then ascii_of_nat (n + 32)
  else c.

Fixpoint toLowerCase (s : string) : string :=
  match s with
  | EmptyString => EmptyString
  | String c r => String (toLowerChar c) (toLowerCase r)
  end.

Fixpoint trimStart (s : string) : string :=
  match s with
  | EmptyString => EmptyString
  | String c r => if isWhiteSpace c then trimStart r else s
  end.

Fixpoint trimEnd (s : string) : string :=
  match s with
  | EmptyString => EmptyString
  | String c r =>
      match trimEnd r with
      | EmptyString => if isWhiteSpace c then EmptyString else String c EmptyString
      | String d r' => String c (String d r')
      end
  end.

(** [String.prototype.trim]. *)
Definition trim (s : string) : string := trimEnd (trimStart s).

(** [s.startsWith(p)]. *)
Definition startsWith (s p : string) : bool := String.prefix p s.

(** [s.substring(n)] with one argument: the characters from index [n]
    on, the empty string when [n] is past the end. *)
Fixpoint substringFrom (n : nat) (s : string) : string :=
  match n, s with
  | O, _ => s
  | S _, EmptyString => EmptyString
  | S m, String _ r => substringFrom m r
  end.

(** Truthiness of a string: only the empty string is falsy. *)
Definition truthy (s : string) : bool :=
  match s with
  | EmptyString => false
  | String _ _ => true
  end.

(** Truthiness of [string | null | undefined]. *)
Definition truthyOpt (o : option string) : bool :=
  match o with
  | Some s => truthy s
  | None => false
  end.

End JsString.
Import JsString.

(* ================================================================== *)
(** ** Data model *)
(* ================================================================== *)

(** [type AppState = "IDLE" | "LISTENING" | "THINKING" | "SPEAKING"]. *)
Inductive AppState : Type := IDLE | LISTENING | THINKING | SPEAKING.

Definition AppState_eqb (a b : AppState) : bool :=
  match a, b with
  | IDLE, IDLE | LISTENING, LISTENING | THINKING, THINKING | SPEAKING, SPEAKING => true
  | _, _ => false
  end.

Inductive Author : Type := user | assistant.

(** [type TranscriptItem = { author; text }]. *)
Record TranscriptItem : Type := mkItem { author : Author; text : string }.

Definition Author_eq_dec (a b : Author) : {a = b} + {a <> b}.
Proof. decide equality. Defined.

Definition TranscriptItem_eq_dec (x y : TranscriptItem) : {x = y} + {x <> y}.
Proof. decide equality; [apply string_dec | apply Author_eq_dec]. Defined.

(** The part of a [SpeechSynthesisVoice] the component reads. *)
Record Voice : Type := mkVoice { voiceURI : string; voiceName : string; lang : string }.

(** The slider value held in [speechRate]. *)
Definition Rate : Type := QArith_base.Q.

(** The [useState] cells of [App]. *)
Record UiState : Type := mkUi {
  appState : AppState;
  statusText : string;
  transcript : list TranscriptItem;
  speechRate : Rate;
  availableVoices : list Voice;
  selectedVoiceURI : option string;
  criticalError : option string;
  textInput : string
}.

(** A [SpeechSynthesisUtterance] as [speakAndDisplay] configures it. *)
Record Utterance : Type := mkUtterance {
  utteranceText : string;
  utteranceVoice : option Voice;
  utteranceRate : Rate
}.

(** A thrown or rejected JavaScript value: an [Error] with its message, or
    anything that is not an [Error] instance. *)
Inductive JsThrown : Type :=
| ErrorObj (message : string)
| NonError.

(** How the promise returned by [geminiChat.current.sendMessage] settles:
    fulfilled with a result whose [text] may be undefined, rejected, or
    never (no timeout is applied). *)
Inductive Outcome : Type :=
| Fulfilled (resultText : option string)
| Rejected (reason : JsThrown)
| NeverSettles.

(** What the handlers read from outside the component. *)
Record Env : Type := mkEnv {
  recognitionAvailable : bool;          (* [recognition] is not null *)
  chatInitialised : bool;               (* [geminiChat.current] is not null *)
  onLine : bool;                        (* [navigator.onLine] *)
  sendMessage : string -> Outcome       (* the remote chat collaborator *)
}.

(** Calls into the platform, in program order.  [Dispatch] is a ghost
    event: it marks an entry into [processCommand] with its argument. *)
Inductive Effect : Type :=
| Dispatch (command : string)
| SendMessage (command : string)
| SynthCancel
| SynthSpeak (u : Utterance)
| RecognitionStart
| RecognitionStop
| StartSound
| PreventDefault
| ConsoleError (label : string).

(* ================================================================== *)
(** ** Handler computations *)
(* ================================================================== *)

Inductive Result (A : Type) : Type :=
| Normal (a : A)
| Throw (e : JsThrown)
| Pending.
Arguments Normal {A} a.
Arguments Throw {A} e.
Arguments Pending {A}.

(** A handler body: from the state, a result, the state after the setters
    and the effects emitted. *)
Definition M (A : Type) : Type := UiState -> Result A * UiState * list Effect.

Definition ret {A} (a : A) : M A := fun s => (Normal a, s, []).

Definition bind {A B} (m : M A) (f : A -> M B) : M B :=
  fun s =>
    match m s with
    | (Normal a, s1, l1) =>
        match f a s1 with
        | (r, s2, l2) => (r, s2, l1 ++ l2)
        end
    | (Throw e, s1, l1) => (Throw e, s1, l1)
    | (Pending, s1, l1) => (Pending, s1, l1)
    end.

Definition throw {A} (e : JsThrown) : M A := fun s => (Throw e, s, []).

(** [try { m } catch (error) { h error }]. *)
Definition tryCatch {A} (m : M A) (h : JsThrown -> M A) : M A :=
  fun s =>
    match m s with
    | (Throw e, s1, l1) =>
        match h e s1 with
        | (r, s2, l2) => (r, s2, l1 ++ l2)
        end
    | other => other
    end.

(** A call of an async function whose promise is dropped: the caller goes
    on whatever becomes of the callee.  The callee's continuation after its
    [await] is run in place; it writes no cell the callers write after the
    call. *)
Definition detach (m : M unit) : M unit :=
  fun s => match m s with (_, s1, l1) => (Normal tt, s1, l1) end.

Definition get : M UiState := fun s => (Normal s, s, []).
Definition modify (f : UiState -> UiState) : M unit := fun s => (Normal tt, f s, []).
Definition emit (e : Effect) : M unit := fun s => (Normal tt, s, [e]).

(** [await p] for a promise that settles as [o]. *)
Definition await (o : Outcome) : M (option string) :=
  fun s =>
    match o with
    | Fulfilled t => (Normal t, s, [])
    | Rejected e => (Throw e, s, [])
    | NeverSettles => (Pending, s, [])
    end.

Notation "x <- m ;; k" := (bind m (fun x => k))
  (at level 61, m at next level, right associativity).
Notation "m ;; k" := (bind m (fun _ => k))
  (at level 61, right associativity).

(** The setters. *)
Definition setAppState (a : AppState) : M unit :=
  modify (fun s => mkUi a (statusText s) (transcript s) (speechRate s)
                        (availableVoices s) (selectedVoiceURI s) (criticalError s) (textInput s)).
Definition setStatusText (t : string) : M unit :=
  modify (fun s => mkUi (appState s) t (transcript s) (speechRate s)
                        (availableVoices s) (selectedVoiceURI s) (criticalError s) (textInput s)).
Definition setTranscript (f : list TranscriptItem -> list TranscriptItem) : M unit :=
  modify (fun s => mkUi (appState s) (statusText s) (f (transcript s)) (speechRate s)
                        (availableVoices s) (selectedVoiceURI s) (criticalError s) (textInput s)).
Definition setCriticalError (e : option string) : M unit :=
  modify (fun s => mkUi (appState s) (statusText s) (transcript s) (speechRate s)
                        (availableVoices s) (selectedVoiceURI s) e (textInput s)).
Definition setTextInput (t : string) : M unit :=
  modify (fun s => mkUi (appState s) (statusText s) (transcript s) (speechRate s)
                        (availableVoices s) (selectedVoiceURI s) (criticalError s) t).

(** Projections of a finished handler. *)
Definition resultOf {A} (x : Result A * UiState * list Effect) : Result A := fst (fst x).
Definition stateOf {A} (x : Result A * UiState * list Effect) : UiState := snd (fst x).
Definition effectsOf {A} (x : Result A * UiState * list Effect) : list Effect := snd x.

(* ================================================================== *)
(** ** Constants of the component *)
(* ================================================================== *)

Definition ASSISTANT_NAME : string := "Bravio".

(** [const wakeWord = ASSISTANT_NAME.toLowerCase()] of [handleResult]. *)
Definition wakeWord : string := toLowerCase ASSISTANT_NAME.

(** The double quote character, for the template that quotes the name. *)
Definition dquote : ascii := ascii_of_nat 34.

Definition idleStatus : string := "Click the orb or type a command...".
Definition listeningPrompt : string := "I'm listening. Please state your command.".
Definition wakeReminder : string :=
  "Please start your command with my name, " ++ String dquote (ASSISTANT_NAME ++ String dquote ".").
Definition emptyResponseMessage : string :=
  "I'm sorry, I couldn't generate a response for that. Please try another question.".
Definition offlineMessage : string :=
  "It seems you're offline. Please check your internet connection and try again.".
Definition serviceErrorMessage : string :=
  "I'm sorry, an issue occurred with the AI service. Please try your request again in a moment.".
Definition micDeniedMessage : string :=
  "Microphone access is not allowed. Please enable it in your browser settings and refresh the page.".
Definition noSpeechMessage : string :=
  "I didn't hear anything. Could you please try again?".
Definition audioCaptureMessage : string :=
  "I'm having trouble with your microphone. Please make sure it's connected and enabled.".
Definition networkMessage : string :=
  "A network error occurred with the speech service. Please check your internet connection.".
Definition otherRecognitionMessage (code : string) : string :=
  "An error occurred with speech recognition: " ++ code ++ ". Please try again.".

(** The state [App] mounts with. *)
Definition initialState : UiState :=
  mkUi IDLE idleStatus [] (QArith_base.Qmake (BinNums.Zpos BinNums.xH) BinNums.xH) [] None None "".

(* ================================================================== *)
(** ** The component's functions *)
(* ================================================================== *)

(** [availableVoices.find(v => v.voiceURI === selectedVoiceURI)]. *)
Definition findVoice (voices : list Voice) (uri : option string) : option Voice :=
  match uri with
  | Some u => find (fun v => String.eqb (voiceURI v) u) voices
  | None => None
  end.

(** [speakAndDisplay(text, author)]: lines 145-164. *)
Definition speakAndDisplay (t : string) (a : Author) : M unit :=
  setTranscript (fun prev => prev ++ [mkItem a t]) ;;
  setAppState SPEAKING ;;
  setStatusText "Speaking..." ;;
  s <- get ;;
  let utterance :=
    mkUtterance t (findVoice (availableVoices s) (selectedVoiceURI s)) (speechRate s) in
  emit SynthCancel ;;
  emit (SynthSpeak utterance).

(** [utterance.onend], installed by [speakAndDisplay]: lines 157-160. *)
Definition utteranceEnd : M unit :=
  setAppState IDLE ;;
  setStatusText idleStatus.

(** [error instanceof Error && error.message === "network-offline"]. *)
Definition isNetworkOffline (error : JsThrown) : bool :=
  match error with
  | ErrorObj m => String.eqb m "network-offline"
  | NonError => false
  end.

Section App.

Variable env : Env.

(** The statements of [processCommand] before its [try]: lines 171-173. *)
Definition processCommand_prologue (command : string) : M unit :=
  setTranscript (fun prev => prev ++ [mkItem user command]) ;;
  setAppState THINKING ;;
  setStatusText "Thinking...".

(** The [try]/[catch] of [processCommand]: lines 175-211. *)
Definition processCommand_attempt (command : string) : M unit :=
  tryCatch
    ((if negb (chatInitialised env)
      then throw (ErrorObj "Gemini chat is not initialized.")
      else ret tt) ;;
     (if negb (onLine env)
      then throw (ErrorObj "network-offline")
      else ret tt) ;;
     emit (SendMessage command) ;;
     resultText <- await (sendMessage env command) ;;
     let assistantMessage := option_map trim resultText in
     match assistantMessage with
     | Some (String c r) => speakAndDisplay (String c r) assistant
     | _ => speakAndDisplay emptyResponseMessage assistant
     end)
    (fun error =>
       emit (ConsoleError "Gemini API error:") ;;
       let errorMessage :=
         if isNetworkOffline error then offlineMessage else serviceErrorMessage in
       speakAndDisplay errorMessage assistant).

(** [processCommand(command)]: lines 170-212. *)
Definition processCommand (command : string) : M unit :=
  emit (Dispatch command) ;;
  processCommand_prologue command ;;
  processCommand_attempt command.

(** [handleResult(event)] with [event.results[0][0].transcript = userMessage]:
    lines 218-237. *)
Definition handleResult (userMessage : string) : M unit :=
  if startsWith (trim (toLowerCase userMessage)) wakeWord then
    let command := trim (substringFrom (String.length wakeWord) (trim userMessage)) in
    if negb (truthy command) then
      speakAndDisplay listeningPrompt assistant
    else
      detach (processCommand command)
  else
    let errorMessage := wakeReminder in
    speakAndDisplay errorMessage assistant.

(** [handleEnd()]: lines 240-247.  The [appState] its body tests is not
    read from the state: it is the value [useCallback(..., [appState])]
    captured in the render that created the callback, here [captured].  The
    listener that runs on an "end" event is the one the effect of lines
    287-303 attached last, so [captured] is the state of an earlier render
    when the event arrives before the component has rendered again. *)
Definition handleEndAttached (captured : AppState) : M unit :=
  if AppState_eqb captured LISTENING then
    setAppState IDLE ;;
    setStatusText idleStatus
  else ret tt.

(** [handleEnd] when the listener attached is the callback of the render of
    the state it runs in. *)
Definition handleEnd : M unit :=
  s <- get ;;
  handleEndAttached (appState s).

(** [handleError(event)] with [event.error = code]: lines 250-281. *)
Definition handleError (code : string) : M unit :=
  emit (ConsoleError "Speech recognition error") ;;
  s <- get ;;
  (if AppState_eqb (appState s) LISTENING then setAppState IDLE else ret tt) ;;
  errorMessage <-
    (if String.eqb code "no-speech" then ret (Some noSpeechMessage)
     else if String.eqb code "not-allowed" || String.eqb code "service-not-allowed" then
       setCriticalError (Some micDeniedMessage) ;; ret None
     else if String.eqb code "audio-capture" then ret (Some audioCaptureMessage)
     else if String.eqb code "network" then ret (Some networkMessage)
     else ret (Some (otherRecognitionMessage code))) ;;
  match errorMessage with
  | Some m => if truthy m then speakAndDisplay m assistant else ret tt
  | None => ret tt
  end.

(** [isDisabled], computed at render: line 383. *)
Definition isDisabled (s : UiState) : bool :=
  truthyOpt (criticalError s)
  || AppState_eqb (appState s) THINKING
  || AppState_eqb (appState s) SPEAKING.

(** [handleOrbClick()]: lines 350-363. *)
Definition handleOrbClick : M unit :=
  s <- get ;;
  if truthyOpt (criticalError s) || negb (recognitionAvailable env) then ret tt
  else if AppState_eqb (appState s) IDLE then
    emit StartSound ;;
    emit RecognitionStart ;;
    setAppState LISTENING ;;
    setStatusText "Listening..."
  else if AppState_eqb (appState s) LISTENING then
    emit RecognitionStop
  else ret tt.

(** [handleTextSubmit(e)]: lines 365-371. *)
Definition handleTextSubmit : M unit :=
  emit PreventDefault ;;
  s <- get ;;
  let command := trim (textInput s) in
  if negb (truthy command) || isDisabled s then ret tt
  else
    detach (processCommand command) ;;
    setTextInput "".

End App.

(* ================================================================== *)
(** ** Observations on an effect trace *)
(* ================================================================== *)

(** The arguments [processCommand] was entered with, in order. *)
Fixpoint dispatched (l : list Effect) : list string :=
  match l with
  | [] => []
  | Dispatch c :: r => c :: dispatched r
  | _ :: r => dispatched r
  end.

(** The texts handed to [speechSynthesis.speak], in order. *)
Fixpoint spoken (l : list Effect) : list string :=
  match l with
  | [] => []
  | SynthSpeak u :: r => utteranceText u :: spoken r
  | _ :: r => spoken r
  end.

(** The number of [recognition.start()] calls. *)
Fixpoint recognitionStarts (l : list Effect) : nat :=
  match l with
  | [] => 0
  | RecognitionStart :: r => S (recognitionStarts r)
  | _ :: r => recognitionStarts r
  end.

(** The number of [recognition.stop()] calls. *)
Fixpoint recognitionStops (l : list Effect) : nat :=
  match l with
  | [] => 0
  | RecognitionStop :: r => S (recognitionStops r)
  | _ :: r => recognitionStops r
  end.

(** The commands sent to the remote chat collaborator, in order. *)
Fixpoint sent (l : list Effect) : list string :=
  match l with
  | [] => []
  | SendMessage c :: r => c :: sent r
  | _ :: r => sent r
  end.


(* ================================================================== *)
(** ** Summaries used in the statements *)
(* ================================================================== *)

(** The state [speakAndDisplay t a] leaves. *)
Definition afterSpeak (t : string) (a : Author) (s : UiState) : UiState :=
  mkUi SPEAKING "Speaking..." (transcript s ++ [mkItem a t]) (speechRate s)
       (availableVoices s) (selectedVoiceURI s) (criticalError s) (textInput s).

(** The state the prologue of [processCommand] leaves. *)
Definition afterPrologue (command : string) (s : UiState) : UiState :=
  mkUi THINKING "Thinking..." (transcript s ++ [mkItem user command]) (speechRate s)
       (availableVoices s) (selectedVoiceURI s) (criticalError s) (textInput s).

(** The utterance [speakAndDisplay t] builds in state [s]. *)
Definition utteranceFor (t : string) (s : UiState) : Utterance :=
  mkUtterance t (findVoice (availableVoices s) (selectedVoiceURI s)) (speechRate s).

(** The text [processCommand] ends up speaking, if it gets that far. *)
Definition spokenReply (env : Env) (command : string) : option string :=
  if negb (chatInitialised env) then Some serviceErrorMessage
  else if negb (onLine env) then Some offlineMessage
  else match sendMessage env command with
       | Fulfilled r =>
           match option_map trim r with
           | Some (String c t) => Some (String c t)
           | _ => Some emptyResponseMessage
           end
       | Rejected e =>
           Some (if isNetworkOffline e then offlineMessage else serviceErrorMessage)
       | NeverSettles => None
       end.

(* ================================================================== *)
(** ** Sample environments and states *)
(* ================================================================== *)

(** A browser that is online, with recognition and an initialised chat
    session whose remote side answers every command. *)
Definition onlineEnv : Env :=
  mkEnv true true true (fun _ => Fulfilled (Some " It is noon. ")).

(** A browser that has gone offline, with its chat session in place. *)
Definition offlineEnv : Env :=
  mkEnv true true false (fun _ => Rejected (ErrorObj "Failed to fetch")).

(** A browser that is online, whose chat session rejects every command
    with an [Error] that carries the message of the offline check. *)
Definition rejectingEnv : Env :=
  mkEnv true true true (fun _ => Rejected (ErrorObj "network-offline")).

(** A browser that is offline and whose chat session was never created. *)
Definition uninitialisedOfflineEnv : Env :=
  mkEnv true false false (fun _ => NeverSettles).

(** A chat session that answers with white space only. *)
Definition blankEnv : Env :=
  mkEnv true true true (fun _ => Fulfilled (Some "   ")).

(** The state after the orb was pressed in [initialState]. *)
Definition listeningState : UiState :=
  mkUi LISTENING "Listening..." [] (speechRate initialState) [] None None "".

(** The state while listening, with a command typed into the text box. *)
Definition listeningTyped : UiState :=
  mkUi LISTENING "Listening..." [] (speechRate initialState) [] None None "what time is it".

(* ================================================================== *)
(** ** The rest of the component: mount, voices, settings, wiring *)
(* ================================================================== *)

Definition setSpeechRate (r : Rate) : M unit :=
  modify (fun s => mkUi (appState s) (statusText s) (transcript s) r
                        (availableVoices s) (selectedVoiceURI s) (criticalError s) (textInput s)).
Definition setAvailableVoices (v : list Voice) : M unit :=
  modify (fun s => mkUi (appState s) (statusText s) (transcript s) (speechRate s)
                        v (selectedVoiceURI s) (criticalError s) (textInput s)).
Definition setSelectedVoiceURI (u : option string) : M unit :=
  modify (fun s => mkUi (appState s) (statusText s) (transcript s) (speechRate s)
                        (availableVoices s) u (criticalError s) (textInput s)).

Definition unsupportedBrowserMessage : string :=
  "Sorry, your browser doesn't support the Web Speech API.".
Definition missingKeyMessage : string :=
  "Configuration Error: Gemini API key is missing. Please set the API_KEY environment variable.".
Definition connectFailedMessage : string :=
  "Error: Could not connect to the AI service. Check the console for details.".

(** The mount effect: lines 88-116.  [recognitionPresent] says whether
    [recognition] is not null, [API_KEY] is [process.env.API_KEY], and
    [createChat] is what constructing the client and the chat throws, if
    anything.  The value returned says whether [geminiChat.current] holds a
    chat afterwards (it is null before). *)
Definition initialise (recognitionPresent : bool) (API_KEY : option string)
           (createChat : option JsThrown) : M bool :=
  if negb recognitionPresent then
    setCriticalError (Some unsupportedBrowserMessage) ;;
    ret false
  else if negb (truthyOpt API_KEY) then
    emit (ConsoleError "API_KEY environment variable not set.") ;;
    setCriticalError (Some missingKeyMessage) ;;
    ret false
  else
    tryCatch
      (match createChat with
       | Some error => throw error
       | None => ret true
       end)
      (fun error =>
         emit (ConsoleError "Failed to initialize Gemini:") ;;
         setCriticalError (Some connectFailedMessage) ;;
         ret false).

(** [loadVoices()] with [window.speechSynthesis.getVoices() = voices]:
    lines 123-131. *)
Definition loadVoices (voices : list Voice) : M unit :=
  let englishVoices := filter (fun voice => startsWith (lang voice) "en") voices in
  setAvailableVoices englishVoices ;;
  s <- get ;;
  match englishVoices with
  | first :: _ =>
      if negb (truthyOpt (selectedVoiceURI s))
      then setSelectedVoiceURI (Some (voiceURI first))
      else ret tt
  | [] => ret tt
  end.

(** [handleRateChange(event)] with [parseFloat(event.target.value) = parsed]:
    lines 373-375. *)
Definition handleRateChange (parsed : Rate) : M unit := setSpeechRate parsed.

(** [handleVoiceChange(event)] with [event.target.value = value]:
    lines 377-379. *)
Definition handleVoiceChange (value : string) : M unit :=
  setSelectedVoiceURI (Some value).

(** The [onChange] of the text box: line 454. *)
Definition handleTextChange (value : string) : M unit := setTextInput value.

(** The [disabled] attribute of the send button: line 462. *)
Definition sendButtonDisabled (s : UiState) : bool :=
  isDisabled s || negb (truthy (trim (textInput s))).

(** The [disabled] attribute of the voice selector: line 436. *)
Definition voiceSelectDisabled (s : UiState) : bool :=
  negb (0 <? List.length (availableVoices s)) || isDisabled s.

(** The [aria-label] of the orb: lines 472-476. *)
Definition orbAriaLabel (s : UiState) : string :=
  if AppState_eqb (appState s) LISTENING then "Stop listening" else "Start listening".

(** What the component is wired to react to: the recognition listeners
    (lines 291-293), [utterance.onend] (line 157), [onvoiceschanged]
    (line 133) and the controls (lines 422, 435, 449, 454, 471). *)
Inductive Event : Type :=
| OrbClick
| TextSubmit
| TextChange (value : string)
| RateChange (parsed : Rate)
| VoiceChange (value : string)
| VoicesChanged (voices : list Voice)
| RecognitionResult (userMessage : string)
| RecognitionEnd
| RecognitionError (code : string)
| UtteranceEnd.

Definition handleEvent (env : Env) (ev : Event) : M unit :=
  match ev with
  | OrbClick => handleOrbClick env
  | TextSubmit => handleTextSubmit env
  | TextChange value => handleTextChange value
  | RateChange parsed => handleRateChange parsed
  | VoiceChange value => handleVoiceChange value
  | VoicesChanged voices => loadVoices voices
  | RecognitionResult userMessage => handleResult env userMessage
  | RecognitionEnd => handleEnd
  | RecognitionError code => handleError code
  | UtteranceEnd => utteranceEnd
  end.

(** Events handled one after the other, each on the state the last left. *)
Fixpoint runEvents (env : Env) (evs : list Event) : M unit :=
  match evs with
  | [] => ret tt
  | ev :: rest => handleEvent env ev ;; runEvents env rest
  end.

(** Every [speechSynthesis.speak] in the trace comes right after a
    [speechSynthesis.cancel]. *)
Fixpoint cancelBeforeSpeak (l : list Effect) : bool :=
  match l with
  | [] => true
  | SynthSpeak _ :: _ => false
  | SynthCancel :: SynthSpeak _ :: r => cancelBeforeSpeak r
  | _ :: r => cancelBeforeSpeak r
  end.

(** The utterances handed to [speechSynthesis.speak], in order. *)
Fixpoint utterances (l : list Effect) : list Utterance :=
  match l with
  | [] => []
  | SynthSpeak u :: r => u :: utterances r
  | _ :: r => utterances r
  end.


(** The state [handleError] speaks or escalates from: Listening is left
    at once, the status text is not touched. *)
Definition leaveListening (s : UiState) : UiState :=
  if AppState_eqb (appState s) LISTENING
  then mkUi IDLE (statusText s) (transcript s) (speechRate s)
            (availableVoices s) (selectedVoiceURI s) (criticalError s) (textInput s)
  else s.

(** The message [handleError] picks for a code, none for the two
    permission codes. *)
Definition errorMessageFor (code : string) : option string :=
  if String.eqb code "no-speech" then Some noSpeechMessage
  else if String.eqb code "not-allowed" || String.eqb code "service-not-allowed" then None
  else if String.eqb code "audio-capture" then Some audioCaptureMessage
  else if String.eqb code "network" then Some networkMessage
  else Some (otherRecognitionMessage code).

(** The platform calls of the [try]/[catch] of [processCommand] before it
    speaks. *)
Definition requestTrace (env : Env) (command : string) : list Effect :=
  if negb (chatInitialised env) then [ConsoleError "Gemini API error:"]
  else if negb (onLine env) then [ConsoleError "Gemini API error:"]
  else match sendMessage env command with
       | Rejected _ => [SendMessage command; ConsoleError "Gemini API error:"]
       | _ => [SendMessage command]
       end.

(** The events that come from the orb and the form. *)
Definition quietEvent (ev : Event) : bool :=
  match ev with
  | OrbClick | TextSubmit => true
  | _ => false
  end.

(** A chat session whose answer never arrives. *)
Definition silentEnv : Env :=
  mkEnv true true true (fun _ => NeverSettles).

(** A voice list as a browser may report it. *)
Definition sampleVoices : list Voice :=
  [mkVoice "de-anna" "Anna" "de-DE";
   mkVoice "en-daniel" "Daniel" "en-GB";
   mkVoice "en-samantha" "Samantha" "en-US"].

(* ================================================================== *)
(** ** Facts about the string primitives *)
(* ================================================================== *)

Lemma isWhiteSpace_toLowerChar (c : ascii) :
  isWhiteSpace (toLowerChar c) = isWhiteSpace c.
Proof.
  destruct c as [[] [] [] [] [] [] [] []]; reflexivity.
Qed.

Lemma toLowerCase_length (s : string) :
  String.length (toLowerCase s) = String.length s.
Proof.
  induction s as [|c r IH]; simpl; [reflexivity | now rewrite IH].
Qed.

Lemma toLowerCase_empty (s : string) :
  toLowerCase s = EmptyString -> s = EmptyString.
Proof.
  destruct s; simpl; [reflexivity | discriminate].
Qed.

Lemma trimStart_toLowerCase (s : string) :
  trimStart (toLowerCase s) = toLowerCase (trimStart s).
Proof.
  induction s as [|c r IH]; simpl; [reflexivity |].
  rewrite isWhiteSpace_toLowerChar.
  destruct (isWhiteSpace c); [exact IH | reflexivity].
Qed.

Lemma trimEnd_toLowerCase (s : string) :
  trimEnd (toLowerCase s) = toLowerCase (trimEnd s).
Proof.
  induction s as [|c r IH]; simpl; [reflexivity |].
  rewrite IH, isWhiteSpace_toLowerChar.
  destruct (trimEnd r) as [|d r']; simpl.
  - destruct (isWhiteSpace c); reflexivity.
  - reflexivity.
Qed.

(** Lower-casing and trimming commute: white space is not a letter. *)
Lemma trim_toLowerCase (s : string) :
  trim (toLowerCase s) = toLowerCase (trim s).
Proof.
  unfold trim. now rewrite trimStart_toLowerCase, trimEnd_toLowerCase.
Qed.

Lemma substringFrom_length (s : string) :
  substringFrom (String.length s) s = EmptyString.
Proof.
  induction s as [|c r IH]; simpl; [reflexivity | exact IH].
Qed.

Lemma truthy_false (s : string) : truthy s = false <-> s = EmptyString.
Proof.
  destruct s; simpl; split; intro H; try reflexivity; discriminate.
Qed.

Lemma truthy_true (s : string) : truthy s = true <-> s <> EmptyString.
Proof.
  destruct s; simpl; split; intro H; try reflexivity; try discriminate.
  now elim H.
Qed.

(** [trimEnd] keeps the first character of what it does not erase. *)
Lemma trimEnd_head (c : ascii) (r : string) :
  isWhiteSpace c = false -> exists r', trimEnd (String c r) = String c r'.
Proof.
  intro H. simpl. destruct (trimEnd r) as [|d r'].
  - rewrite H. now exists EmptyString.
  - now exists (String d r').
Qed.

Lemma trimEnd_idempotent (s : string) : trimEnd (trimEnd s) = trimEnd s.
Proof.
  induction s as [|c r IH]; simpl; [reflexivity |].
  destruct (trimEnd r) as [|d r'] eqn:E.
  - destruct (isWhiteSpace c) eqn:W; simpl; [reflexivity | now rewrite W].
  - change (trimEnd (String c (String d r'))) with
      (match trimEnd (String d r') with
       | EmptyString => if isWhiteSpace c then EmptyString else String c EmptyString
       | String d' r'' => String c (String d' r'')
       end).
    now rewrite IH.
Qed.

Lemma trimStart_head (s : string) :
  trimStart s = EmptyString \/
  exists c r, trimStart s = String c r /\ isWhiteSpace c = false.
Proof.
  induction s as [|c r IH]; simpl; [now left |].
  destruct (isWhiteSpace c) eqn:W; [exact IH |].
  right. now exists c, r.
Qed.

(** A trimmed string is a fixed point of [trim]. *)
Lemma trim_idempotent (s : string) : trim (trim s) = trim s.
Proof.
  unfold trim.
  destruct (trimStart_head s) as [E | (c & r & E & W)]; rewrite E.
  - reflexivity.
  - destruct (trimEnd_head c r W) as [r' E'].
    rewrite E'. simpl trimStart. rewrite W. rewrite <- E'.
    apply trimEnd_idempotent.
Qed.

(* ================================================================== *)
(** ** What the functions compute *)
(* ================================================================== *)

Lemma speakAndDisplay_run (t : string) (a : Author) (s : UiState) :
  speakAndDisplay t a s =
  (Normal tt, afterSpeak t a s, [SynthCancel; SynthSpeak (utteranceFor t s)]).
Proof. reflexivity. Qed.

Lemma processCommand_prologue_run (command : string) (s : UiState) :
  processCommand_prologue command s = (Normal tt, afterPrologue command s, []).
Proof. reflexivity. Qed.

Ltac run_processCommand env command :=
  unfold processCommand, processCommand_attempt, spokenReply;
  destruct env as [ra ci ol sm]; simpl;
  destruct ci; [| reflexivity];
  destruct ol; [| reflexivity];
  unfold bind, tryCatch, emit, await; simpl;
  destruct (sm command) as [[t|]|e|]; simpl; try reflexivity;
  try (destruct (trim t); reflexivity);
  try (destruct (isNetworkOffline e); reflexivity).

Lemma processCommand_result (env : Env) (command : string) (s : UiState) :
  resultOf (processCommand env command s) =
  match spokenReply env command with
  | Some _ => Normal tt
  | None => Pending
  end.
Proof. run_processCommand env command. Qed.

Lemma processCommand_state (env : Env) (command : string) (s : UiState) :
  stateOf (processCommand env command s) =
  match spokenReply env command with
  | Some m => afterSpeak m assistant (afterPrologue command s)
  | None => afterPrologue command s
  end.
Proof. run_processCommand env command. Qed.

Lemma processCommand_dispatched (env : Env) (command : string) (s : UiState) :
  dispatched (effectsOf (processCommand env command s)) = [command].
Proof. run_processCommand env command. Qed.

Lemma processCommand_spoken (env : Env) (command : string) (s : UiState) :
  spoken (effectsOf (processCommand env command s)) =
  match spokenReply env command with
  | Some m => [m]
  | None => []
  end.
Proof. run_processCommand env command. Qed.

Lemma processCommand_sent (env : Env) (command : string) (s : UiState) :
  sent (effectsOf (processCommand env command s)) =
  if chatInitialised env && onLine env then [command] else [].
Proof. run_processCommand env command. Qed.

Lemma processCommand_recognitionStarts (env : Env) (command : string) (s : UiState) :
  recognitionStarts (effectsOf (processCommand env command s)) = 0.
Proof. run_processCommand env command. Qed.

(** [detach] keeps the state and the effects of the call. *)
Lemma detach_state (m : M unit) (s : UiState) : stateOf (detach m s) = stateOf (m s).
Proof. unfold detach, stateOf. now destruct (m s) as [[r s1] l1]. Qed.

Lemma detach_effects (m : M unit) (s : UiState) : effectsOf (detach m s) = effectsOf (m s).
Proof. unfold detach, effectsOf. now destruct (m s) as [[r s1] l1]. Qed.

Lemma detach_result (m : M unit) (s : UiState) : resultOf (detach m s) = Normal tt.
Proof. unfold detach, resultOf. now destruct (m s) as [[r s1] l1]. Qed.

(** The three ways [handleResult] goes. *)
Lemma handleResult_command (env : Env) (u : string) (s : UiState) :
  startsWith (trim (toLowerCase u)) wakeWord = true ->
  trim (substringFrom (String.length wakeWord) (trim u)) <> EmptyString ->
  handleResult env u s =
  detach (processCommand env (trim (substringFrom (String.length wakeWord) (trim u)))) s.
Proof.
  intros Hw Hc. unfold handleResult. rewrite Hw.
  apply truthy_true in Hc. now rewrite Hc.
Qed.

Lemma handleResult_wake_only (env : Env) (u : string) (s : UiState) :
  startsWith (trim (toLowerCase u)) wakeWord = true ->
  trim (substringFrom (String.length wakeWord) (trim u)) = EmptyString ->
  handleResult env u s = speakAndDisplay listeningPrompt assistant s.
Proof.
  intros Hw Hc. unfold handleResult. rewrite Hw, Hc. reflexivity.
Qed.

Lemma handleResult_no_wake (env : Env) (u : string) (s : UiState) :
  startsWith (trim (toLowerCase u)) wakeWord = false ->
  handleResult env u s = speakAndDisplay wakeReminder assistant s.
Proof.
  intros Hw. unfold handleResult. now rewrite Hw.
Qed.

(** An utterance that is the wake name and nothing else leaves no command. *)
Lemma wake_name_alone (u : string) :
  trim (toLowerCase u) = wakeWord ->
  startsWith (trim (toLowerCase u)) wakeWord = true /\
  trim (substringFrom (String.length wakeWord) (trim u)) = EmptyString.
Proof.
  intro H. split.
  - rewrite H. reflexivity.
  - rewrite trim_toLowerCase in H.
    assert (L : String.length (trim u) = String.length wakeWord)
      by (rewrite <- H; symmetry; apply toLowerCase_length).
    rewrite <- L, substringFrom_length. reflexivity.
Qed.

(* ================================================================== *)
(** ** Wake-name parsing and dispatch ([handleResult]) *)
(* ================================================================== *)

(** C1. For every recognised utterance whose lower-cased, trimmed form
    starts with the wake name and whose remainder (the trimmed utterance
    with the wake name's length cut off, trimmed again) is not empty,
    [handleResult] behaves as a call of [processCommand] on exactly that
    remainder, and [processCommand] is entered once, with it.  In
    particular the utterance "bravio what time is it" dispatches
    "what time is it", in every environment and state. *)
Theorem handleResult_dispatches_remainder (env : Env) (s : UiState) :
  (forall u : string,
      startsWith (trim (toLowerCase u)) wakeWord = true ->
      trim (substringFrom (String.length wakeWord) (trim u)) <> EmptyString ->
      handleResult env u s =
        detach (processCommand env
                  (trim (substringFrom (String.length wakeWord) (trim u)))) s
      /\ dispatched (effectsOf (handleResult env u s)) =
         [trim (substringFrom (String.length wakeWord) (trim u))])
  /\ dispatched (effectsOf (handleResult env "bravio what time is it" s)) =
     ["what time is it"].
Proof.
  assert (G : forall u : string,
      startsWith (trim (toLowerCase u)) wakeWord = true ->
      trim (substringFrom (String.length wakeWord) (trim u)) <> EmptyString ->
      handleResult env u s =
        detach (processCommand env
                  (trim (substringFrom (String.length wakeWord) (trim u)))) s
      /\ dispatched (effectsOf (handleResult env u s)) =
         [trim (substringFrom (String.length wakeWord) (trim u))]).
  { intros u Hw Hc. split.
    - now apply handleResult_command.
    - rewrite (handleResult_command env u s Hw Hc), detach_effects.
      apply processCommand_dispatched. }
  split; [exact G |].
  apply (G "bravio what time is it"); [reflexivity | discriminate].
Qed.

Lemma handleResult_dispatches_remainder_witness :
  startsWith (trim (toLowerCase "  Bravio, what time is it? ")) wakeWord = true
  /\ trim (substringFrom (String.length wakeWord) (trim "  Bravio, what time is it? "))
     = ", what time is it?"
  /\ dispatched (effectsOf (handleResult onlineEnv "  Bravio, what time is it? " listeningState))
     = [", what time is it?"].
Proof.
  split; [reflexivity |]. split; [reflexivity |].
  apply (proj1 (handleResult_dispatches_remainder onlineEnv listeningState)
               "  Bravio, what time is it? ");
    [reflexivity | discriminate].
Defined.

(** The command [handleResult] dispatches is never empty and is already
    trimmed. *)
Lemma handleResult_dispatch_well_formed (env : Env) (u c : string) (s : UiState) :
  In c (dispatched (effectsOf (handleResult env u s))) ->
  c <> EmptyString /\ trim c = c.
Proof.
  unfold handleResult.
  destruct (startsWith (trim (toLowerCase u)) wakeWord).
  - destruct (truthy (trim (substringFrom (String.length wakeWord) (trim u)))) eqn:T; simpl.
    + rewrite detach_effects, processCommand_dispatched. simpl.
      intros [<- | []]. split; [now apply truthy_true | apply trim_idempotent].
    + intros [].
  - simpl. intros [].
Qed.

(** C4. A final recognition result that is not a valid wake-prefixed
    command (the wake name is absent, or nothing is left after it) enters
    [processCommand] never and sends nothing to the remote chat; exactly one
    guidance message is spoken and transcribed: the "I'm listening. Please
    state your command." prompt when the utterance is the wake name alone,
    the reminder to start with the name when the wake name is absent. *)
Theorem handleResult_guidance (env : Env) (u : string) (s : UiState) :
  startsWith (trim (toLowerCase u)) wakeWord = false
  \/ trim (substringFrom (String.length wakeWord) (trim u)) = EmptyString ->
  dispatched (effectsOf (handleResult env u s)) = []
  /\ sent (effectsOf (handleResult env u s)) = []
  /\ (exists g,
         spoken (effectsOf (handleResult env u s)) = [g]
         /\ transcript (stateOf (handleResult env u s)) = transcript s ++ [mkItem assistant g]
         /\ (g = listeningPrompt \/ g = wakeReminder))
  /\ (trim (toLowerCase u) = wakeWord ->
      spoken (effectsOf (handleResult env u s)) = [listeningPrompt])
  /\ (startsWith (trim (toLowerCase u)) wakeWord = true ->
      spoken (effectsOf (handleResult env u s)) = [listeningPrompt])
  /\ (startsWith (trim (toLowerCase u)) wakeWord = false ->
      spoken (effectsOf (handleResult env u s)) = [wakeReminder]).
Proof.
  intros H.
  destruct (startsWith (trim (toLowerCase u)) wakeWord) eqn:Hw.
  - destruct H as [H | Hc]; [discriminate |].
    rewrite (handleResult_wake_only env u s Hw Hc), speakAndDisplay_run.
    repeat split; try reflexivity.
    + exists listeningPrompt. repeat split. now left.
    + discriminate.
  - rewrite (handleResult_no_wake env u s Hw), speakAndDisplay_run.
    repeat split; try reflexivity.
    + exists wakeReminder. repeat split. now right.
    + intro E. rewrite E in Hw. discriminate.
    + discriminate.
Qed.

Lemma handleResult_guidance_witness :
  trim (substringFrom (String.length wakeWord) (trim " BRAVIO  ")) = EmptyString
  /\ dispatched (effectsOf (handleResult onlineEnv " BRAVIO  " listeningState)) = []
  /\ spoken (effectsOf (handleResult onlineEnv " BRAVIO  " listeningState)) = [listeningPrompt].
Proof.
  split; [reflexivity |].
  pose proof (handleResult_guidance onlineEnv " BRAVIO  " listeningState
                (or_intror eq_refl)) as (D & _ & _ & P & _).
  split; [exact D | apply P; reflexivity].
Defined.

(** The reminder is spoken for an utterance without the wake name. *)
Example handleResult_hello :
  spoken (effectsOf (handleResult onlineEnv "hello there" listeningState)) = [wakeReminder]
  /\ dispatched (effectsOf (handleResult onlineEnv "hello there" listeningState)) = [].
Proof. split; reflexivity. Qed.

(* ================================================================== *)
(** ** The Listening row of the transition table *)
(* ================================================================== *)

(** C3, as stated, fails: from Listening, a final transcript without the
    wake name leaves the machine in Speaking, not in Idle. *)
Lemma listening_malformed_goes_speaking :
  appState listeningState = LISTENING
  /\ startsWith (trim (toLowerCase "hello there")) wakeWord = false
  /\ appState (stateOf (handleResult onlineEnv "hello there" listeningState)) = SPEAKING
  /\ AppState_eqb (appState (stateOf (handleResult onlineEnv "hello there" listeningState)))
                  IDLE = false.
Proof. repeat split. Qed.

(** C3, amended. When the machine is in Listening and recognition yields a
    final transcript that is empty or malformed (no wake name, or the wake
    name with nothing after it), [handleResult] dispatches no command,
    speaks one guidance message and leaves the machine in Speaking, not
    in Idle; the machine is in Idle once the completion handler of that
    utterance has run. *)
Theorem listening_malformed_speaks_then_idle (env : Env) (u : string) (s : UiState) :
  appState s = LISTENING ->
  startsWith (trim (toLowerCase u)) wakeWord = false
  \/ trim (substringFrom (String.length wakeWord) (trim u)) = EmptyString ->
  resultOf (handleResult env u s) = Normal tt
  /\ appState (stateOf (handleResult env u s)) = SPEAKING
  /\ dispatched (effectsOf (handleResult env u s)) = []
  /\ (exists g, spoken (effectsOf (handleResult env u s)) = [g])
  /\ appState (stateOf (utteranceEnd (stateOf (handleResult env u s)))) = IDLE
  /\ statusText (stateOf (utteranceEnd (stateOf (handleResult env u s)))) = idleStatus.
Proof.
  intros _ H.
  assert (E : exists g, handleResult env u s = speakAndDisplay g assistant s).
  { destruct (startsWith (trim (toLowerCase u)) wakeWord) eqn:Hw.
    - destruct H as [H | Hc]; [discriminate |].
      exists listeningPrompt. now apply handleResult_wake_only.
    - exists wakeReminder. now apply handleResult_no_wake. }
  destruct E as [g E]. rewrite E, speakAndDisplay_run.
  repeat split. now exists g.
Qed.

Lemma listening_malformed_speaks_then_idle_witness :
  appState listeningState = LISTENING
  /\ startsWith (trim (toLowerCase "")) wakeWord = false
  /\ appState (stateOf (handleResult onlineEnv "" listeningState)) = SPEAKING
  /\ appState (stateOf (utteranceEnd (stateOf (handleResult onlineEnv "" listeningState))))
     = IDLE.
Proof.
  split; [reflexivity |]. split; [reflexivity |].
  pose proof (listening_malformed_speaks_then_idle onlineEnv "" listeningState
                eq_refl (or_introl eq_refl)) as (_ & A & _ & _ & B & _).
  split; [exact A | exact B].
Defined.

(* ================================================================== *)
(** ** The controls while a command is in flight *)
(* ================================================================== *)

(** C2, as stated, fails: in Listening the form is not disabled, and a
    submitted text is dispatched and moves the machine on. *)
Lemma listening_text_submit_dispatches :
  AppState_eqb (appState listeningTyped) IDLE = false
  /\ isDisabled listeningTyped = false
  /\ dispatched (effectsOf (handleTextSubmit onlineEnv listeningTyped)) = ["what time is it"]
  /\ sent (effectsOf (handleTextSubmit onlineEnv listeningTyped)) = ["what time is it"]
  /\ appState (stateOf (handleTextSubmit onlineEnv listeningTyped)) = SPEAKING
  /\ transcript (stateOf (handleTextSubmit onlineEnv listeningTyped))
     = [mkItem user "what time is it"; mkItem assistant "It is noon."].
Proof. repeat split. Qed.

Lemma isDisabled_busy (s : UiState) :
  appState s = THINKING \/ appState s = SPEAKING -> isDisabled s = true.
Proof.
  unfold isDisabled. intros [E | E]; rewrite E; simpl.
  - now rewrite orb_true_r.
  - now rewrite orb_true_r.
Qed.

(** C2, amended. In every state other than Idle the orb control starts no
    recognition, dispatches no command and leaves the state unchanged: in
    Thinking and Speaking it does nothing at all, in Listening it calls
    [recognition.stop()] and nothing else (and not even that under a
    critical error or without recognition).  In Thinking and Speaking a
    text submission is a no-op as well: nothing is started or dispatched
    and the state, the text box included, is unchanged.  In Listening the
    form is enabled: with no critical error, a text that is not blank is
    dispatched, trimmed. *)
Theorem busy_controls_inert (env : Env) (s : UiState) :
  appState s <> IDLE ->
  (stateOf (handleOrbClick env s) = s
   /\ recognitionStarts (effectsOf (handleOrbClick env s)) = 0
   /\ dispatched (effectsOf (handleOrbClick env s)) = [])
  /\ (appState s <> LISTENING ->
      stateOf (handleTextSubmit env s) = s
      /\ recognitionStarts (effectsOf (handleTextSubmit env s)) = 0
      /\ dispatched (effectsOf (handleTextSubmit env s)) = []
      /\ sent (effectsOf (handleTextSubmit env s)) = [])
  /\ (appState s = LISTENING ->
      truthyOpt (criticalError s) = false ->
      trim (textInput s) <> EmptyString ->
      dispatched (effectsOf (handleTextSubmit env s)) = [trim (textInput s)])
  /\ (appState s = LISTENING ->
      truthyOpt (criticalError s) = false ->
      recognitionAvailable env = true ->
      handleOrbClick env s = (Normal tt, s, [RecognitionStop]))
  /\ (appState s = LISTENING ->
      truthyOpt (criticalError s) = true \/ recognitionAvailable env = false ->
      handleOrbClick env s = (Normal tt, s, []))
  /\ (appState s <> LISTENING ->
      handleOrbClick env s = (Normal tt, s, [])
      /\ handleTextSubmit env s = (Normal tt, s, [PreventDefault])).
Proof.
  intros Hidle. split; [| split; [| split; [| split; [| split]]]].
  - unfold handleOrbClick, bind, get. simpl.
    destruct (truthyOpt (criticalError s) || negb (recognitionAvailable env));
      [repeat split |].
    destruct (appState s) eqn:E; [now elim Hidle | | |]; simpl; repeat split.
  - intros Hl.
    assert (D : isDisabled s = true).
    { apply isDisabled_busy. destruct (appState s); auto; now elim Hidle + elim Hl. }
    unfold handleTextSubmit, bind, get, emit. simpl.
    rewrite D, orb_true_r. repeat split.
  - intros Hl Hc Ht.
    unfold handleTextSubmit, bind, get, emit. simpl.
    apply truthy_true in Ht. rewrite Ht.
    unfold isDisabled. rewrite Hc, Hl. simpl.
    pose proof (detach_effects (processCommand env (trim (textInput s))) s) as De.
    pose proof (processCommand_dispatched env (trim (textInput s)) s) as Pd.
    unfold effectsOf in De, Pd.
    destruct (detach (processCommand env (trim (textInput s))) s) as [[r s1] l1].
    simpl in De. subst l1.
    destruct r; simpl; rewrite ?app_nil_r; exact Pd.
  - intros Hl Hc Hr.
    unfold handleOrbClick, bind, get, emit. simpl.
    rewrite Hc, Hr, Hl. reflexivity.
  - intros Hl Hb.
    unfold handleOrbClick, bind, get. simpl.
    destruct Hb as [Hb | Hb]; rewrite Hb; [reflexivity |].
    now rewrite orb_true_r.
  - intros Hl.
    assert (D : isDisabled s = true).
    { apply isDisabled_busy. destruct (appState s); auto; now elim Hidle + elim Hl. }
    split.
    + unfold handleOrbClick, bind, get. simpl.
      destruct (truthyOpt (criticalError s) || negb (recognitionAvailable env));
        [reflexivity |].
      destruct (appState s); [now elim Hidle | now elim Hl | reflexivity | reflexivity].
    + unfold handleTextSubmit, bind, get, emit. simpl.
      now rewrite D, orb_true_r.
Qed.

Lemma busy_controls_inert_witness :
  AppState_eqb (appState (afterPrologue "what time is it" listeningTyped)) IDLE = false
  /\ stateOf (handleOrbClick onlineEnv (afterPrologue "what time is it" listeningTyped))
     = afterPrologue "what time is it" listeningTyped
  /\ stateOf (handleTextSubmit onlineEnv (afterPrologue "what time is it" listeningTyped))
     = afterPrologue "what time is it" listeningTyped
  /\ AppState_eqb (appState listeningState) IDLE = false
  /\ handleOrbClick onlineEnv listeningState = (Normal tt, listeningState, [RecognitionStop]).
Proof.
  split; [reflexivity |].
  pose proof (busy_controls_inert onlineEnv (afterPrologue "what time is it" listeningTyped))
    as H.
  destruct H as ((A & _) & B & _); [discriminate |].
  split; [exact A |].
  split; [apply B; discriminate |].
  split; [reflexivity |].
  pose proof (busy_controls_inert onlineEnv listeningState) as K.
  destruct K as (_ & _ & _ & C & _); [discriminate |].
  exact (C eq_refl eq_refl eq_refl).
Defined.

(* ================================================================== *)
(** ** The command dispatcher ([processCommand]) *)
(* ================================================================== *)

Lemma isNetworkOffline_true (e : JsThrown) :
  isNetworkOffline e = true <-> e = ErrorObj "network-offline".
Proof.
  destruct e as [m |]; simpl.
  - rewrite String.eqb_eq. split; [now intros -> | now intros [= ->]].
  - split; discriminate.
Qed.

(** Whatever the environment, [processCommand] ends normally or stays
    suspended on the remote call: nothing is thrown past it. *)
Lemma processCommand_never_throws (env : Env) (command : string) (s : UiState) :
  forall e, resultOf (processCommand env command s) <> Throw e.
Proof.
  intros e. rewrite processCommand_result.
  destruct (spokenReply env command); discriminate.
Qed.

(** C5, as stated, fails: the failure is classified by the message of the
    caught error, not by [navigator.onLine].  A rejection while online whose
    error message is "network-offline" is answered with the offline
    message, not with the service-error message. *)
Lemma online_rejection_offline_message :
  onLine rejectingEnv = true
  /\ chatInitialised rejectingEnv = true
  /\ sendMessage rejectingEnv "what time is it" = Rejected (ErrorObj "network-offline")
  /\ spoken (effectsOf (processCommand rejectingEnv "what time is it" initialState))
     = [offlineMessage]
  /\ String.eqb offlineMessage serviceErrorMessage = false.
Proof. repeat split. Qed.

(** The other way round: offline with no chat session, the first check
    throws, and the service-error message is spoken. *)
Example offline_uninitialised_service_message :
  onLine uninitialisedOfflineEnv = false
  /\ spoken (effectsOf (processCommand uninitialisedOfflineEnv "what time is it" initialState))
     = [serviceErrorMessage].
Proof. split; reflexivity. Qed.

(** C5, amended. Every failure in the dispatcher (no chat session, the
    browser offline, or the remote call rejected) ends inside it: the call
    returns normally, one message is spoken and transcribed after the
    user's entry, and the machine is in Speaking.  With a chat session, a
    failure while the browser reports offline yields the offline message;
    a rejection while online yields the service-error message unless the
    rejection is an [Error] whose message is "network-offline", which
    yields the offline message; without a chat session the service-error
    message is spoken whether the browser is online or not. *)
Theorem processCommand_failure_spoken (env : Env) (command : string) (s : UiState) :
  chatInitialised env = false \/ onLine env = false
  \/ (exists e, sendMessage env command = Rejected e) ->
  resultOf (processCommand env command s) = Normal tt
  /\ appState (stateOf (processCommand env command s)) = SPEAKING
  /\ (exists m,
         spoken (effectsOf (processCommand env command s)) = [m]
         /\ transcript (stateOf (processCommand env command s))
            = transcript s ++ [mkItem user command; mkItem assistant m]
         /\ (m = offlineMessage \/ m = serviceErrorMessage))
  /\ (chatInitialised env = true -> onLine env = false ->
      spoken (effectsOf (processCommand env command s)) = [offlineMessage])
  /\ (chatInitialised env = true -> onLine env = true ->
      forall e, sendMessage env command = Rejected e ->
                e <> ErrorObj "network-offline" ->
                spoken (effectsOf (processCommand env command s)) = [serviceErrorMessage])
  /\ (chatInitialised env = true -> onLine env = true ->
      sendMessage env command = Rejected (ErrorObj "network-offline") ->
      spoken (effectsOf (processCommand env command s)) = [offlineMessage])
  /\ (chatInitialised env = false ->
      spoken (effectsOf (processCommand env command s)) = [serviceErrorMessage]).
Proof.
  intros H.
  rewrite processCommand_result, processCommand_state, processCommand_spoken.
  assert (R : exists m, spokenReply env command = Some m
                        /\ (m = offlineMessage \/ m = serviceErrorMessage)).
  { unfold spokenReply.
    destruct (chatInitialised env); simpl; [| eauto].
    destruct (onLine env); simpl; [| eauto].
    destruct H as [H | [H | [e H]]]; try discriminate.
    rewrite H. destruct (isNetworkOffline e); eauto. }
  destruct R as (m & R & Rm). rewrite R.
  split; [reflexivity |]. split; [reflexivity |].
  split.
  { exists m. split; [reflexivity |]. split; [| exact Rm].
    simpl. now rewrite <- app_assoc. }
  unfold spokenReply in R.
  repeat split.
  - intros Hc Ho. rewrite Hc, Ho in R. simpl in R. now injection R as <-.
  - intros Hc Ho e He Hne. rewrite Hc, Ho, He in R. simpl in R.
    destruct (isNetworkOffline e) eqn:N.
    + apply isNetworkOffline_true in N. contradiction.
    + now injection R as <-.
  - intros Hc Ho He. rewrite Hc, Ho, He in R. simpl in R. now injection R as <-.
  - intros Hc. rewrite Hc in R. simpl in R. now injection R as <-.
Qed.

Lemma processCommand_failure_spoken_witness :
  onLine offlineEnv = false
  /\ resultOf (processCommand offlineEnv "what time is it" initialState) = Normal tt
  /\ appState (stateOf (processCommand offlineEnv "what time is it" initialState)) = SPEAKING
  /\ spoken (effectsOf (processCommand offlineEnv "what time is it" initialState))
     = [offlineMessage].
Proof.
  split; [reflexivity |].
  pose proof (processCommand_failure_spoken offlineEnv "what time is it" initialState
                (or_intror (or_introl eq_refl))) as (A & B & _ & C & _).
  split; [exact A |]. split; [exact B |].
  apply C; reflexivity.
Defined.

(** C6. For every reply of the remote chat whose text is missing or is
    empty once trimmed (white space only included), the dispatcher speaks
    and transcribes the fixed "couldn't generate a response" message in its
    place: the transcript grows by the user's entry and that message, the
    message is not empty, and with a command that is not empty (as both
    callers ensure) no entry appended has an empty text. *)
Theorem processCommand_empty_reply (env : Env) (command : string) (s : UiState)
        (r : option string) :
  chatInitialised env = true ->
  onLine env = true ->
  sendMessage env command = Fulfilled r ->
  (forall t, r = Some t -> trim t = EmptyString) ->
  resultOf (processCommand env command s) = Normal tt
  /\ appState (stateOf (processCommand env command s)) = SPEAKING
  /\ spoken (effectsOf (processCommand env command s)) = [emptyResponseMessage]
  /\ transcript (stateOf (processCommand env command s))
     = transcript s ++ [mkItem user command; mkItem assistant emptyResponseMessage]
  /\ truthy emptyResponseMessage = true
  /\ (truthy command = true ->
      Forall (fun i => truthy (text i) = true)
             [mkItem user command; mkItem assistant emptyResponseMessage]).
Proof.
  intros Hc Ho Hs Hr.
  rewrite processCommand_result, processCommand_state, processCommand_spoken.
  assert (R : spokenReply env command = Some emptyResponseMessage).
  { unfold spokenReply. rewrite Hc, Ho, Hs. simpl.
    destruct r as [t |]; simpl; [| reflexivity].
    now rewrite (Hr t eq_refl). }
  rewrite R. repeat split.
  - simpl. now rewrite <- app_assoc.
  - intros Ht. repeat constructor. exact Ht.
Qed.

Lemma processCommand_empty_reply_witness :
  trim "   " = EmptyString
  /\ spoken (effectsOf (processCommand blankEnv "what time is it" initialState))
     = [emptyResponseMessage]
  /\ transcript (stateOf (processCommand blankEnv "what time is it" initialState))
     = [mkItem user "what time is it"; mkItem assistant emptyResponseMessage].
Proof.
  split; [reflexivity |].
  pose proof (processCommand_empty_reply blankEnv "what time is it" initialState
                (Some "   ") eq_refl eq_refl eq_refl) as H.
  destruct H as (_ & _ & A & B & _).
  - intros t E. injection E as <-. reflexivity.
  - split; [exact A | exact B].
Defined.

(** A result without a [text] is treated the same way. *)
Example processCommand_undefined_text :
  spoken (effectsOf (processCommand (mkEnv true true true (fun _ => Fulfilled None))
                                    "what time is it" initialState))
  = [emptyResponseMessage].
Proof. reflexivity. Qed.

(* ================================================================== *)
(** ** The transcript *)
(* ================================================================== *)

(** Appending one entry: one longer, and nothing before it moves. *)
Lemma append_one_preserves (l : list TranscriptItem) (x : TranscriptItem) :
  List.length (l ++ [x]) = S (List.length l)
  /\ (forall i, i < List.length l -> nth_error (l ++ [x]) i = nth_error l i)
  /\ nth_error (l ++ [x]) (List.length l) = Some x.
Proof.
  split; [| split].
  - rewrite length_app. simpl. lia.
  - intros i Hi. now apply nth_error_app1.
  - rewrite nth_error_app2 by lia. now rewrite Nat.sub_diag.
Qed.

(** C7. The transcript is append-only.  The append of [speakAndDisplay]
    and the append of [processCommand] (its user entry) each make the
    transcript exactly one longer, put the new entry last and leave every
    earlier entry at its position with its author and text; a whole run of
    [processCommand] is the second append or both, in that order. *)
Theorem transcript_append_only (env : Env) (s : UiState) :
  (forall t a,
      List.length (transcript (stateOf (speakAndDisplay t a s)))
      = S (List.length (transcript s))
      /\ (forall i, i < List.length (transcript s) ->
                    nth_error (transcript (stateOf (speakAndDisplay t a s))) i
                    = nth_error (transcript s) i)
      /\ nth_error (transcript (stateOf (speakAndDisplay t a s)))
                   (List.length (transcript s))
         = Some (mkItem a t))
  /\ (forall command,
         List.length (transcript (stateOf (processCommand_prologue command s)))
         = S (List.length (transcript s))
         /\ (forall i, i < List.length (transcript s) ->
                       nth_error (transcript (stateOf (processCommand_prologue command s))) i
                       = nth_error (transcript s) i)
         /\ nth_error (transcript (stateOf (processCommand_prologue command s)))
                      (List.length (transcript s))
            = Some (mkItem user command))
  /\ (forall command,
         stateOf (processCommand env command s)
         = stateOf (processCommand_prologue command s)
         \/ exists m,
             stateOf (processCommand env command s)
             = stateOf (speakAndDisplay m assistant
                          (stateOf (processCommand_prologue command s)))).
Proof.
  split; [| split].
  - intros t a. rewrite speakAndDisplay_run. apply append_one_preserves.
  - intros command. rewrite processCommand_prologue_run. apply append_one_preserves.
  - intros command.
    rewrite processCommand_state, processCommand_prologue_run.
    destruct (spokenReply env command) as [m |]; [right | left]; [| reflexivity].
    exists m. now rewrite speakAndDisplay_run.
Qed.

Lemma transcript_append_only_witness :
  1 < List.length (transcript (stateOf (processCommand onlineEnv "what time is it" initialState)))
  /\ nth_error (transcript
                  (stateOf (speakAndDisplay "Goodbye." assistant
                              (stateOf (processCommand onlineEnv "what time is it"
                                                       initialState))))) 1
     = Some (mkItem assistant "It is noon.").
Proof.
  assert (L : 1 < List.length (transcript (stateOf (processCommand onlineEnv "what time is it"
                                                                   initialState))))
    by (simpl; lia).
  split; [exact L |].
  destruct (transcript_append_only onlineEnv
              (stateOf (processCommand onlineEnv "what time is it" initialState)))
    as (A & _).
  destruct (A "Goodbye." assistant) as (_ & P & _).
  rewrite (P 1 L). reflexivity.
Defined.

(** C10. Whatever the command and the environment, [processCommand] first
    appends the user's entry and sets Thinking, by statements that read
    nothing of the environment, and only then runs the block that tests
    for the chat session, the network and the remote outcome.  What comes
    after never removes or repeats that entry: the final transcript is the
    old one, the user's entry, and at most one assistant entry, so this
    call adds the user's command exactly once, also when the remote call
    is never made or fails. *)
Theorem processCommand_user_entry_first (env : Env) (command : string) (s : UiState) :
  processCommand_prologue command s = (Normal tt, afterPrologue command s, [])
  /\ appState (afterPrologue command s) = THINKING
  /\ statusText (afterPrologue command s) = "Thinking..."
  /\ transcript (afterPrologue command s) = transcript s ++ [mkItem user command]
  /\ processCommand env command s
     = (resultOf (processCommand_attempt env command (afterPrologue command s)),
        stateOf (processCommand_attempt env command (afterPrologue command s)),
        Dispatch command
          :: effectsOf (processCommand_attempt env command (afterPrologue command s)))
  /\ (exists rest,
         transcript (stateOf (processCommand env command s))
         = transcript s ++ mkItem user command :: rest
         /\ List.length rest <= 1
         /\ Forall (fun i => author i = assistant) rest)
  /\ count_occ TranscriptItem_eq_dec
               (transcript (stateOf (processCommand env command s)))
               (mkItem user command)
     = S (count_occ TranscriptItem_eq_dec (transcript s) (mkItem user command)).
Proof.
  assert (T : exists rest,
             transcript (stateOf (processCommand env command s))
             = transcript s ++ mkItem user command :: rest
             /\ List.length rest <= 1
             /\ Forall (fun i => author i = assistant) rest).
  { rewrite processCommand_state.
    destruct (spokenReply env command) as [m |]; simpl.
    - exists [mkItem assistant m]. rewrite <- app_assoc. simpl.
      repeat split; [lia | now repeat constructor].
    - exists []. repeat split; [simpl; lia | constructor]. }
  repeat split; try exact T.
  { unfold processCommand, bind, emit, afterPrologue. simpl.
    now destruct (processCommand_attempt env command _) as [[[a | e |] s2] l2]. }
  destruct T as (rest & E & L & F). rewrite E.
  rewrite count_occ_app, count_occ_cons_eq by reflexivity.
  assert (Z : count_occ TranscriptItem_eq_dec rest (mkItem user command) = 0).
  { apply count_occ_not_In. intros I.
    rewrite Forall_forall in F. specialize (F _ I). discriminate. }
  rewrite Z. lia.
Qed.

(** The user's entry is there, once, when the remote call is never made. *)
Example processCommand_user_entry_offline :
  transcript (stateOf (processCommand offlineEnv "what time is it" initialState))
  = [mkItem user "what time is it"; mkItem assistant offlineMessage]
  /\ sent (effectsOf (processCommand offlineEnv "what time is it" initialState)) = [].
Proof. split; reflexivity. Qed.

(* ================================================================== *)
(** ** Recognition events ([handleError], [handleEnd]) *)
(* ================================================================== *)

Lemma eqb_false_of_neq (a b : string) : a <> b -> String.eqb a b = false.
Proof. intro H. now apply String.eqb_neq. Qed.

(** C8. On a recognition error event, the codes "not-allowed" and
    "service-not-allowed" set the critical error (which disables the
    controls), speak nothing and add nothing to the transcript; every other
    code sets no critical error and speaks and transcribes one message that
    is not empty and is fixed by the code alone. *)
Theorem handleError_classifies (code : string) (s : UiState) :
  (code = "not-allowed" \/ code = "service-not-allowed" ->
   criticalError (stateOf (handleError code s)) = Some micDeniedMessage
   /\ isDisabled (stateOf (handleError code s)) = true
   /\ spoken (effectsOf (handleError code s)) = []
   /\ transcript (stateOf (handleError code s)) = transcript s)
  /\ (code <> "not-allowed" -> code <> "service-not-allowed" ->
      criticalError (stateOf (handleError code s)) = criticalError s
      /\ exists m,
          spoken (effectsOf (handleError code s)) = [m]
          /\ transcript (stateOf (handleError code s)) = transcript s ++ [mkItem assistant m]
          /\ appState (stateOf (handleError code s)) = SPEAKING
          /\ truthy m = true
          /\ (code = "no-speech" /\ m = noSpeechMessage
              \/ code = "audio-capture" /\ m = audioCaptureMessage
              \/ code = "network" /\ m = networkMessage
              \/ (code <> "no-speech" /\ code <> "audio-capture" /\ code <> "network")
                 /\ m = otherRecognitionMessage code)).
Proof.
  split.
  - intros [-> | ->]; destruct (appState s) eqn:E;
      unfold handleError, bind, emit, get; simpl; rewrite E; repeat split.
  - intros N1 N2.
    unfold handleError, bind, emit, get. simpl.
    rewrite (eqb_false_of_neq _ _ N1), (eqb_false_of_neq _ _ N2). simpl.
    destruct (String.eqb code "no-speech") eqn:E1;
      [apply String.eqb_eq in E1 | apply String.eqb_neq in E1].
    { destruct (appState s); simpl; (split; [reflexivity |]);
        exists noSpeechMessage; repeat split; now left. }
    destruct (String.eqb code "audio-capture") eqn:E2;
      [apply String.eqb_eq in E2 | apply String.eqb_neq in E2].
    { destruct (appState s); simpl; (split; [reflexivity |]);
        exists audioCaptureMessage; repeat split; right; now left. }
    destruct (String.eqb code "network") eqn:E3;
      [apply String.eqb_eq in E3 | apply String.eqb_neq in E3].
    { destruct (appState s); simpl; (split; [reflexivity |]);
        exists networkMessage; repeat split; right; right; now left. }
    destruct (appState s); simpl; (split; [reflexivity |]);
      exists (otherRecognitionMessage code); repeat split;
      right; right; right; repeat split; assumption.
Qed.

Lemma handleError_classifies_witness :
  criticalError (stateOf (handleError "not-allowed" listeningState)) = Some micDeniedMessage
  /\ spoken (effectsOf (handleError "not-allowed" listeningState)) = []
  /\ criticalError (stateOf (handleError "aborted" listeningState)) = None
  /\ spoken (effectsOf (handleError "aborted" listeningState))
     = ["An error occurred with speech recognition: aborted. Please try again."].
Proof.
  destruct (handleError_classifies "not-allowed" listeningState) as (A & _).
  destruct (A (or_introl eq_refl)) as (A1 & _ & A2 & _).
  destruct (handleError_classifies "aborted" listeningState) as (_ & B).
  destruct B as (B1 & m & B2 & _); [discriminate | discriminate |].
  split; [exact A1 |]. split; [exact A2 |]. split; [exact B1 |].
  reflexivity.
Defined.

(** C9. That the "end" handler resets the machine when and only when the
    current state is Listening is what the comment in the handler says,
    and the handler misses it.  It tests the [appState] captured by the
    render that created it: it resets the machine exactly when that
    captured value is Listening, whatever the state is now.  So when the
    "end" event follows a "result" event before the component has rendered
    again, the handler still holds Listening: from Listening, the utterance
    "hello there" puts the machine in Speaking, and the "end" handler then
    puts it in Idle with the idle status text while the reminder is being
    spoken. *)
Theorem stale_handleEnd_resets_speaking :
  (forall captured s,
      (captured = LISTENING ->
       handleEndAttached captured s
       = (Normal tt,
          mkUi IDLE idleStatus (transcript s) (speechRate s) (availableVoices s)
               (selectedVoiceURI s) (criticalError s) (textInput s), []))
      /\ (captured <> LISTENING -> handleEndAttached captured s = (Normal tt, s, [])))
  /\ appState listeningState = LISTENING
  /\ appState (stateOf (handleResult onlineEnv "hello there" listeningState)) = SPEAKING
  /\ spoken (effectsOf (handleResult onlineEnv "hello there" listeningState))
     = [wakeReminder]
  /\ appState (stateOf (handleEndAttached (appState listeningState)
                          (stateOf (handleResult onlineEnv "hello there" listeningState))))
     = IDLE
  /\ statusText (stateOf (handleEndAttached (appState listeningState)
                            (stateOf (handleResult onlineEnv "hello there" listeningState))))
     = idleStatus
  /\ isDisabled (stateOf (handleEndAttached (appState listeningState)
                            (stateOf (handleResult onlineEnv "hello there" listeningState))))
     = false.
Proof.
  split; [| repeat split].
  intros captured s. unfold handleEndAttached. split.
  - intros ->. reflexivity.
  - intros N. destruct captured; try reflexivity. now elim N.
Qed.

(** With a callback of the current render the handler does what the
    comment says. *)
Lemma handleEnd_current_render (s : UiState) :
  handleEnd s = handleEndAttached (appState s) s.
Proof.
  unfold handleEnd, handleEndAttached, bind, get. simpl.
  destruct (AppState_eqb (appState s) LISTENING); reflexivity.
Qed.

(* ================================================================== *)
(** ** Normal forms of the handlers *)
(* ================================================================== *)

Lemma processCommand_run (env : Env) (command : string) (s : UiState) :
  processCommand env command s =
  match spokenReply env command with
  | Some m =>
      (Normal tt, afterSpeak m assistant (afterPrologue command s),
       Dispatch command :: requestTrace env command
         ++ [SynthCancel; SynthSpeak (utteranceFor m s)])
  | None =>
      (Pending, afterPrologue command s, Dispatch command :: requestTrace env command)
  end.
Proof.
  unfold processCommand, processCommand_attempt, spokenReply, requestTrace.
  destruct env as [ra ci ol sm]; simpl.
  destruct ci; [| reflexivity].
  destruct ol; [| reflexivity].
  unfold bind, tryCatch, emit, await; simpl.
  destruct (sm command) as [[t |] | e |]; simpl; try reflexivity.
  destruct (trim t); reflexivity.
Qed.

Lemma handleOrbClick_run (env : Env) (s : UiState) :
  handleOrbClick env s =
  if truthyOpt (criticalError s) || negb (recognitionAvailable env) then (Normal tt, s, [])
  else match appState s with
       | IDLE =>
           (Normal tt,
            mkUi LISTENING "Listening..." (transcript s) (speechRate s) (availableVoices s)
                 (selectedVoiceURI s) (criticalError s) (textInput s),
            [StartSound; RecognitionStart])
       | LISTENING => (Normal tt, s, [RecognitionStop])
       | _ => (Normal tt, s, [])
       end.
Proof.
  unfold handleOrbClick, bind, get. simpl.
  destruct (truthyOpt (criticalError s) || negb (recognitionAvailable env)); [reflexivity |].
  destruct (appState s); reflexivity.
Qed.

Lemma handleTextSubmit_run (env : Env) (s : UiState) :
  handleTextSubmit env s =
  if sendButtonDisabled s then (Normal tt, s, [PreventDefault])
  else
    (Normal tt,
     mkUi (appState (stateOf (processCommand env (trim (textInput s)) s)))
          (statusText (stateOf (processCommand env (trim (textInput s)) s)))
          (transcript (stateOf (processCommand env (trim (textInput s)) s)))
          (speechRate s) (availableVoices s) (selectedVoiceURI s) (criticalError s) "",
     PreventDefault :: effectsOf (processCommand env (trim (textInput s)) s)).
Proof.
  unfold handleTextSubmit, sendButtonDisabled, bind, get, emit. simpl.
  rewrite (orb_comm (isDisabled s)).
  destruct (negb (truthy (trim (textInput s))) || isDisabled s); [reflexivity |].
  unfold detach, setTextInput, modify. rewrite processCommand_run.
  destruct (spokenReply env (trim (textInput s))); simpl; now rewrite app_nil_r.
Qed.

Lemma handleResult_run (env : Env) (u : string) (s : UiState) :
  handleResult env u s =
  if startsWith (trim (toLowerCase u)) wakeWord then
    if truthy (trim (substringFrom (String.length wakeWord) (trim u))) then
      (Normal tt,
       stateOf (processCommand env (trim (substringFrom (String.length wakeWord) (trim u))) s),
       effectsOf (processCommand env (trim (substringFrom (String.length wakeWord) (trim u))) s))
    else speakAndDisplay listeningPrompt assistant s
  else speakAndDisplay wakeReminder assistant s.
Proof.
  unfold handleResult.
  destruct (startsWith (trim (toLowerCase u)) wakeWord); [| reflexivity].
  destruct (truthy (trim (substringFrom (String.length wakeWord) (trim u)))); [| reflexivity].
  simpl. unfold detach.
  now destruct (processCommand env _ s) as [[r s1] l1].
Qed.

Lemma handleError_run (code : string) (s : UiState) :
  handleError code s =
  match errorMessageFor code with
  | Some m =>
      (Normal tt, afterSpeak m assistant (leaveListening s),
       [ConsoleError "Speech recognition error"; SynthCancel; SynthSpeak (utteranceFor m s)])
  | None =>
      (Normal tt,
       mkUi (appState (leaveListening s)) (statusText s) (transcript s) (speechRate s)
            (availableVoices s) (selectedVoiceURI s) (Some micDeniedMessage) (textInput s),
       [ConsoleError "Speech recognition error"])
  end.
Proof.
  unfold handleError, errorMessageFor, leaveListening, bind, emit, get. simpl.
  destruct (String.eqb code "no-speech");
    [destruct (appState s); reflexivity |].
  destruct (String.eqb code "not-allowed" || String.eqb code "service-not-allowed");
    [destruct (appState s); reflexivity |].
  destruct (String.eqb code "audio-capture");
    [destruct (appState s); reflexivity |].
  destruct (String.eqb code "network");
    destruct (appState s); reflexivity.
Qed.

Lemma errorMessageFor_truthy (code m : string) :
  errorMessageFor code = Some m -> truthy m = true.
Proof.
  unfold errorMessageFor.
  destruct (String.eqb code "no-speech"); [now intros [= <-] |].
  destruct (String.eqb code "not-allowed" || String.eqb code "service-not-allowed");
    [discriminate |].
  destruct (String.eqb code "audio-capture"); [now intros [= <-] |].
  destruct (String.eqb code "network"); now intros [= <-].
Qed.

Lemma handleEnd_run (s : UiState) :
  handleEnd s =
  if AppState_eqb (appState s) LISTENING
  then (Normal tt,
        mkUi IDLE idleStatus (transcript s) (speechRate s) (availableVoices s)
             (selectedVoiceURI s) (criticalError s) (textInput s), [])
  else (Normal tt, s, []).
Proof.
  unfold handleEnd, handleEndAttached, bind, get. simpl.
  destruct (AppState_eqb (appState s) LISTENING); reflexivity.
Qed.

Lemma loadVoices_run (voices : list Voice) (s : UiState) :
  loadVoices voices s =
  (Normal tt,
   mkUi (appState s) (statusText s) (transcript s) (speechRate s)
        (filter (fun voice => startsWith (lang voice) "en") voices)
        (match filter (fun voice => startsWith (lang voice) "en") voices with
         | first :: _ =>
             if truthyOpt (selectedVoiceURI s) then selectedVoiceURI s
             else Some (voiceURI first)
         | [] => selectedVoiceURI s
         end)
        (criticalError s) (textInput s),
   []).
Proof.
  unfold loadVoices, bind, get. simpl.
  destruct (filter (fun voice => startsWith (lang voice) "en") voices) as [| first rest];
    [reflexivity |].
  destruct (truthyOpt (selectedVoiceURI s)); reflexivity.
Qed.

(** No handler lets an exception out or leaves its caller waiting. *)
Lemma handleEvent_result (env : Env) (ev : Event) (s : UiState) :
  resultOf (handleEvent env ev s) = Normal tt.
Proof.
  destruct ev; simpl.
  - rewrite handleOrbClick_run.
    destruct (truthyOpt (criticalError s) || negb (recognitionAvailable env)); [reflexivity |].
    destruct (appState s); reflexivity.
  - rewrite handleTextSubmit_run. destruct (sendButtonDisabled s); reflexivity.
  - reflexivity.
  - reflexivity.
  - reflexivity.
  - now rewrite loadVoices_run.
  - rewrite handleResult_run.
    destruct (startsWith (trim (toLowerCase userMessage)) wakeWord); [| reflexivity].
    destruct (truthy (trim (substringFrom (String.length wakeWord) (trim userMessage))));
      reflexivity.
  - rewrite handleEnd_run. destruct (AppState_eqb (appState s) LISTENING); reflexivity.
  - rewrite handleError_run. destruct (errorMessageFor code); reflexivity.
  - reflexivity.
Qed.

Lemma runEvents_cons (env : Env) (ev : Event) (rest : list Event) (s : UiState) :
  runEvents env (ev :: rest) s =
  (resultOf (runEvents env rest (stateOf (handleEvent env ev s))),
   stateOf (runEvents env rest (stateOf (handleEvent env ev s))),
   effectsOf (handleEvent env ev s)
     ++ effectsOf (runEvents env rest (stateOf (handleEvent env ev s)))).
Proof.
  pose proof (handleEvent_result env ev s) as R.
  simpl. unfold bind.
  destruct (handleEvent env ev s) as [[r s1] l1].
  unfold resultOf, stateOf, effectsOf in *. simpl in *. subst r.
  now destruct (runEvents env rest s1) as [[r2 s2] l2].
Qed.

Ltac event_cases env ev s :=
  destruct ev as [| | value | parsed | value | voices | userMessage | | code |];
  simpl handleEvent;
  [ rewrite handleOrbClick_run;
    destruct (truthyOpt (criticalError s) || negb (recognitionAvailable env)) eqn:?;
    [| destruct (appState s) eqn:?]
  | rewrite handleTextSubmit_run; destruct (sendButtonDisabled s) eqn:?
  | unfold handleTextChange, setTextInput, modify
  | unfold handleRateChange, setSpeechRate, modify
  | unfold handleVoiceChange, setSelectedVoiceURI, modify
  | rewrite loadVoices_run
  | rewrite handleResult_run;
    destruct (startsWith (trim (toLowerCase userMessage)) wakeWord) eqn:?;
    [ destruct (truthy (trim (substringFrom (String.length wakeWord) (trim userMessage))))
               eqn:?
    | ];
    rewrite ?speakAndDisplay_run
  | rewrite handleEnd_run; destruct (AppState_eqb (appState s) LISTENING) eqn:?
  | rewrite handleError_run; destruct (errorMessageFor code) eqn:?
  | unfold utteranceEnd, bind, setAppState, setStatusText, modify ].

Lemma leaveListening_fields (s : UiState) :
  transcript (leaveListening s) = transcript s
  /\ statusText (leaveListening s) = statusText s
  /\ speechRate (leaveListening s) = speechRate s
  /\ availableVoices (leaveListening s) = availableVoices s
  /\ selectedVoiceURI (leaveListening s) = selectedVoiceURI s
  /\ criticalError (leaveListening s) = criticalError s
  /\ textInput (leaveListening s) = textInput s.
Proof.
  unfold leaveListening.
  destruct (AppState_eqb (appState s) LISTENING); repeat split.
Qed.

Lemma leaveListening_transcript (s : UiState) :
  transcript (leaveListening s) = transcript s.
Proof. apply leaveListening_fields. Qed.

Lemma leaveListening_criticalError (s : UiState) :
  criticalError (leaveListening s) = criticalError s.
Proof. apply leaveListening_fields. Qed.

Ltac project :=
  unfold afterSpeak, afterPrologue;
  cbn [stateOf effectsOf resultOf fst snd dispatched spoken sent utterances
       recognitionStarts cancelBeforeSpeak map app List.length
       appState statusText transcript speechRate availableVoices selectedVoiceURI
       criticalError textInput].

(* ================================================================== *)
(** ** Properties of every event *)
(* ================================================================== *)

(** X1. Whatever the event, the transcript afterwards is the transcript
    before, then one user entry for the command dispatched during the
    event (if any), then one assistant entry for the text spoken during it
    (if any): nothing is spoken without being transcribed, nothing is
    transcribed that was not dispatched or spoken, and an event dispatches
    and speaks at most once. *)
Theorem transcript_records_dispatch_and_speech (env : Env) (ev : Event) (s : UiState) :
  transcript (stateOf (handleEvent env ev s))
  = transcript s
      ++ map (mkItem user) (dispatched (effectsOf (handleEvent env ev s)))
      ++ map (mkItem assistant) (spoken (effectsOf (handleEvent env ev s)))
  /\ List.length (dispatched (effectsOf (handleEvent env ev s))) <= 1
  /\ List.length (spoken (effectsOf (handleEvent env ev s))) <= 1.
Proof.
  event_cases env ev s; project;
    rewrite ?processCommand_dispatched, ?processCommand_spoken, ?processCommand_state,
            ?leaveListening_transcript;
    try (destruct (spokenReply env _)); project;
    rewrite <- ?app_assoc, ?app_nil_r; cbn [app List.length]; repeat split; lia.
Qed.

(** X2. The remote chat is called only with the command just dispatched,
    and only when a chat session exists and the browser reports online:
    in any other environment no event sends anything. *)
Theorem remote_only_when_ready (env : Env) (ev : Event) (s : UiState) :
  sent (effectsOf (handleEvent env ev s))
  = if chatInitialised env && onLine env
    then dispatched (effectsOf (handleEvent env ev s))
    else [].
Proof.
  event_cases env ev s; project;
    rewrite ?processCommand_dispatched, ?processCommand_sent;
    destruct (chatInitialised env && onLine env); reflexivity.
Qed.

Lemma processCommand_frame (env : Env) (command : string) (s : UiState) :
  speechRate (stateOf (processCommand env command s)) = speechRate s
  /\ availableVoices (stateOf (processCommand env command s)) = availableVoices s
  /\ selectedVoiceURI (stateOf (processCommand env command s)) = selectedVoiceURI s
  /\ criticalError (stateOf (processCommand env command s)) = criticalError s
  /\ textInput (stateOf (processCommand env command s)) = textInput s.
Proof.
  rewrite processCommand_state.
  destruct (spokenReply env command); repeat split.
Qed.

Lemma processCommand_criticalError (env : Env) (command : string) (s : UiState) :
  criticalError (stateOf (processCommand env command s)) = criticalError s.
Proof. apply processCommand_frame. Qed.

Lemma errorMessageFor_none (code : string) :
  errorMessageFor code = None <-> code = "not-allowed" \/ code = "service-not-allowed".
Proof.
  unfold errorMessageFor. split.
  - destruct (String.eqb code "no-speech"); [discriminate |].
    destruct (String.eqb code "not-allowed") eqn:A;
      [apply String.eqb_eq in A; now left |].
    destruct (String.eqb code "service-not-allowed") eqn:B;
      [apply String.eqb_eq in B; now right |].
    simpl.
    destruct (String.eqb code "audio-capture"); [discriminate |].
    destruct (String.eqb code "network"); discriminate.
  - intros [-> | ->]; reflexivity.
Qed.

(** An event leaves the critical error as it was or sets the microphone
    message. *)
Lemma handleEvent_criticalError (env : Env) (ev : Event) (s : UiState) :
  criticalError (stateOf (handleEvent env ev s)) = criticalError s
  \/ criticalError (stateOf (handleEvent env ev s)) = Some micDeniedMessage.
Proof.
  event_cases env ev s; project;
    rewrite ?processCommand_criticalError, ?leaveListening_criticalError; auto.
Qed.

Lemma isDisabled_critical (s : UiState) :
  truthyOpt (criticalError s) = true -> isDisabled s = true.
Proof. unfold isDisabled. now intros ->. Qed.

(** X3. A critical error is never cleared: once it is set, it is set after
    every further sequence of events, and the text box, the send button,
    the settings and the orb are rendered disabled after each of them. *)
Theorem criticalError_sticky (env : Env) (evs : list Event) (s : UiState) :
  truthyOpt (criticalError s) = true ->
  truthyOpt (criticalError (stateOf (runEvents env evs s))) = true
  /\ isDisabled (stateOf (runEvents env evs s)) = true
  /\ sendButtonDisabled (stateOf (runEvents env evs s)) = true
  /\ voiceSelectDisabled (stateOf (runEvents env evs s)) = true.
Proof.
  intros H.
  assert (K : truthyOpt (criticalError (stateOf (runEvents env evs s))) = true).
  { revert s H. induction evs as [| ev rest IH]; intros s H; [exact H |].
    rewrite runEvents_cons. cbn [stateOf fst snd]. apply IH.
    destruct (handleEvent_criticalError env ev s) as [E | E]; rewrite E;
      [exact H | reflexivity]. }
  pose proof (isDisabled_critical _ K) as D.
  unfold sendButtonDisabled, voiceSelectDisabled. rewrite D.
  repeat split; [exact K | apply orb_true_r].
Qed.

Lemma criticalError_sticky_witness :
  truthyOpt (criticalError
               (stateOf (handleError "not-allowed" listeningState))) = true
  /\ isDisabled
       (stateOf (runEvents onlineEnv
                   [RecognitionEnd; OrbClick; TextChange "what time is it"; TextSubmit]
                   (stateOf (handleError "not-allowed" listeningState)))) = true.
Proof.
  split; [reflexivity |].
  apply (criticalError_sticky onlineEnv
           [RecognitionEnd; OrbClick; TextChange "what time is it"; TextSubmit]
           (stateOf (handleError "not-allowed" listeningState))).
  reflexivity.
Defined.

(** X4. While a critical error is set, pressing the orb and submitting the
    form do nothing, in every state of the machine, Idle included: no
    recognition is started or stopped, nothing is dispatched, and the state
    is the same. *)
Theorem critical_error_blocks_controls (env : Env) (s : UiState) :
  truthyOpt (criticalError s) = true ->
  handleOrbClick env s = (Normal tt, s, [])
  /\ handleTextSubmit env s = (Normal tt, s, [PreventDefault]).
Proof.
  intros H. split.
  - rewrite handleOrbClick_run, H. reflexivity.
  - rewrite handleTextSubmit_run. unfold sendButtonDisabled.
    now rewrite (isDisabled_critical s H).
Qed.

Lemma critical_error_blocks_controls_witness :
  appState (stateOf (handleError "service-not-allowed" listeningTyped)) = IDLE
  /\ effectsOf (handleOrbClick onlineEnv
                  (stateOf (handleError "service-not-allowed" listeningTyped))) = []
  /\ effectsOf (handleTextSubmit onlineEnv
                  (stateOf (handleError "service-not-allowed" listeningTyped)))
     = [PreventDefault].
Proof.
  split; [reflexivity |].
  destruct (critical_error_blocks_controls onlineEnv
              (stateOf (handleError "service-not-allowed" listeningTyped)) eq_refl)
    as [A B].
  rewrite A, B. split; reflexivity.
Defined.

Lemma processCommand_speech (env : Env) (command : string) (s : UiState) :
  cancelBeforeSpeak (effectsOf (processCommand env command s)) = true
  /\ utterances (effectsOf (processCommand env command s))
     = match spokenReply env command with
       | Some m => [utteranceFor m s]
       | None => []
       end.
Proof.
  rewrite processCommand_run. unfold spokenReply, requestTrace.
  destruct (chatInitialised env); [| now split].
  destruct (onLine env); [| now split].
  destruct (sendMessage env command) as [[t |] | e |]; simpl; try now split.
  destruct (trim t); now split.
Qed.

(** X5. Whatever the event, every call of [speechSynthesis.speak] comes
    right after a call of [speechSynthesis.cancel], and the utterance
    spoken carries the speech rate and the voice selected in the state the
    event arrived in: the voice of [availableVoices] whose URI is
    [selectedVoiceURI], the platform default when there is none. *)
Theorem speak_cancels_first_with_current_settings (env : Env) (ev : Event) (s : UiState) :
  cancelBeforeSpeak (effectsOf (handleEvent env ev s)) = true
  /\ Forall (fun u => utteranceRate u = speechRate s
                      /\ utteranceVoice u
                         = findVoice (availableVoices s) (selectedVoiceURI s))
            (utterances (effectsOf (handleEvent env ev s))).
Proof.
  event_cases env ev s; project;
    try match goal with
        | |- context [effectsOf (processCommand env ?c s)] =>
            destruct (processCommand_speech env c s) as [Q1 Q2];
            rewrite Q1, Q2; destruct (spokenReply env c)
        end.
  all: split; [reflexivity |].
  all: try apply Forall_nil.
  all: try (apply Forall_cons; [split; reflexivity | apply Forall_nil]).
Qed.

Lemma runEvents_state_cons (env : Env) (ev : Event) (rest : list Event) (s : UiState) :
  stateOf (runEvents env (ev :: rest) s)
  = stateOf (runEvents env rest (stateOf (handleEvent env ev s))).
Proof. now rewrite runEvents_cons. Qed.

Lemma runEvents_effects_cons (env : Env) (ev : Event) (rest : list Event) (s : UiState) :
  effectsOf (runEvents env (ev :: rest) s)
  = effectsOf (handleEvent env ev s)
      ++ effectsOf (runEvents env rest (stateOf (handleEvent env ev s))).
Proof. now rewrite runEvents_cons. Qed.



(* ================================================================== *)
(** ** Whole interactions *)
(* ================================================================== *)

Lemma requestTrace_silent (env : Env) (command : string) (tail : list Effect) :
  spoken (requestTrace env command ++ tail) = spoken tail
  /\ dispatched (requestTrace env command ++ tail) = dispatched tail
  /\ recognitionStarts (requestTrace env command ++ tail) = recognitionStarts tail.
Proof.
  unfold requestTrace.
  destruct (chatInitialised env); [| now repeat split].
  destruct (onLine env); [| now repeat split].
  destruct (sendMessage env command); now repeat split.
Qed.

Lemma spokenReply_settles (env : Env) (command : string) :
  (chatInitialised env = true -> onLine env = true ->
   sendMessage env command <> NeverSettles) ->
  exists m, spokenReply env command = Some m.
Proof.
  unfold spokenReply. intros H.
  destruct (chatInitialised env); simpl; [| eauto].
  destruct (onLine env); simpl; [| eauto].
  destruct (sendMessage env command) as [[t |] | e |]; simpl; eauto.
  - destruct (trim t); eauto.
  - now elim (H eq_refl eq_refl).
Qed.

(** X7. A whole voice command.  From Idle, with no critical error and
    recognition available: the orb is pressed, recognition delivers an
    utterance that carries the wake name and a command, recognition ends,
    the utterance completes.  If the remote call settles or is not made
    (fulfilled, rejected, offline, no chat session), the machine is back in
    Idle with the idle status text, the transcript has grown by the user's
    command and the one message that was spoken, and every other cell is
    what it was; recognition was started once and one command was
    dispatched. *)
Theorem voice_command_cycle (env : Env) (u : string) (s : UiState) :
  appState s = IDLE ->
  truthyOpt (criticalError s) = false ->
  recognitionAvailable env = true ->
  startsWith (trim (toLowerCase u)) wakeWord = true ->
  trim (substringFrom (String.length wakeWord) (trim u)) <> EmptyString ->
  (chatInitialised env = true -> onLine env = true ->
   sendMessage env (trim (substringFrom (String.length wakeWord) (trim u))) <> NeverSettles) ->
  exists m,
    stateOf (runEvents env [OrbClick; RecognitionResult u; RecognitionEnd; UtteranceEnd] s)
    = mkUi IDLE idleStatus
           (transcript s
              ++ [mkItem user (trim (substringFrom (String.length wakeWord) (trim u)));
                  mkItem assistant m])
           (speechRate s) (availableVoices s) (selectedVoiceURI s)
           (criticalError s) (textInput s)
    /\ spoken (effectsOf (runEvents env
                            [OrbClick; RecognitionResult u; RecognitionEnd; UtteranceEnd] s))
       = [m]
    /\ dispatched (effectsOf (runEvents env
                                [OrbClick; RecognitionResult u; RecognitionEnd; UtteranceEnd] s))
       = [trim (substringFrom (String.length wakeWord) (trim u))]
    /\ recognitionStarts (effectsOf (runEvents env
                                       [OrbClick; RecognitionResult u; RecognitionEnd;
                                        UtteranceEnd] s))
       = 1.
Proof.
  intros Hi Hc Hr Hw Ht Hs.
  destruct (spokenReply_settles env _ Hs) as [m Hm].
  exists m.
  apply truthy_true in Ht.
  rewrite !runEvents_effects_cons, !runEvents_state_cons.
  simpl handleEvent.
  rewrite handleOrbClick_run, Hc, Hr, Hi. cbn [orb negb stateOf effectsOf fst snd].
  rewrite handleResult_run, Hw, Ht.
  rewrite processCommand_run, Hm. cbn [stateOf effectsOf fst snd].
  rewrite handleEnd_run. unfold afterSpeak at 1 2 3. cbn [appState AppState_eqb].
  cbn [stateOf effectsOf fst snd runEvents ret].
  unfold utteranceEnd, bind, setAppState, setStatusText, modify, afterSpeak, afterPrologue.
  cbn [stateOf effectsOf fst snd appState statusText transcript speechRate availableVoices
       selectedVoiceURI criticalError textInput app].
  rewrite <- app_assoc. cbn [app].
  rewrite !app_nil_r.
  cbn [spoken dispatched recognitionStarts].
  destruct (requestTrace_silent env (trim (substringFrom (String.length wakeWord) (trim u)))
              [SynthCancel; SynthSpeak (utteranceFor m s)]) as (Q1 & Q2 & Q3).
  unfold utteranceFor in *.
  cbn [availableVoices selectedVoiceURI speechRate] in *.
  rewrite Q1, Q2, Q3. repeat split.
Qed.

Lemma voice_command_cycle_witness :
  stateOf (runEvents offlineEnv
             [OrbClick; RecognitionResult "Bravio turn on the lights"; RecognitionEnd;
              UtteranceEnd] initialState)
  = mkUi IDLE idleStatus
         [mkItem user "turn on the lights"; mkItem assistant offlineMessage]
         (speechRate initialState) [] None None "".
Proof.
  assert (N : trim (substringFrom (String.length wakeWord) (trim "Bravio turn on the lights"))
              <> EmptyString) by discriminate.
  assert (S : chatInitialised offlineEnv = true -> onLine offlineEnv = true ->
              sendMessage offlineEnv
                (trim (substringFrom (String.length wakeWord)
                         (trim "Bravio turn on the lights"))) <> NeverSettles)
    by (intros _ F; discriminate F).
  destruct (voice_command_cycle offlineEnv "Bravio turn on the lights" initialState
              eq_refl eq_refl eq_refl eq_refl N S) as (m & A & B & _).
  rewrite A. clear A.
  assert (E : m = offlineMessage) by (now injection B as <-).
  rewrite E. reflexivity.
Defined.

(** X8. Starting and stopping.  From Idle, with no critical error and
    recognition available: the orb is pressed, which enters Listening; it
    is pressed again, which changes no cell; the "end" event then runs the
    handler created by the render in Listening.  The three handlers
    together call [recognition.start()] once and [recognition.stop()]
    once, dispatch and speak nothing, and leave every cell as it was, the
    status text being the idle one. *)
Theorem start_stop_round_trip (env : Env) (s : UiState) :
  appState s = IDLE ->
  truthyOpt (criticalError s) = false ->
  recognitionAvailable env = true ->
  appState (stateOf (handleOrbClick env s)) = LISTENING
  /\ stateOf (handleOrbClick env (stateOf (handleOrbClick env s)))
     = stateOf (handleOrbClick env s)
  /\ stateOf (handleEndAttached (appState (stateOf (handleOrbClick env s)))
                (stateOf (handleOrbClick env (stateOf (handleOrbClick env s)))))
     = mkUi IDLE idleStatus (transcript s) (speechRate s) (availableVoices s)
            (selectedVoiceURI s) (criticalError s) (textInput s)
  /\ recognitionStarts
       (effectsOf (handleOrbClick env s)
          ++ effectsOf (handleOrbClick env (stateOf (handleOrbClick env s)))
          ++ effectsOf (handleEndAttached (appState (stateOf (handleOrbClick env s)))
                          (stateOf (handleOrbClick env (stateOf (handleOrbClick env s))))))
     = 1
  /\ recognitionStops
       (effectsOf (handleOrbClick env s)
          ++ effectsOf (handleOrbClick env (stateOf (handleOrbClick env s)))
          ++ effectsOf (handleEndAttached (appState (stateOf (handleOrbClick env s)))
                          (stateOf (handleOrbClick env (stateOf (handleOrbClick env s))))))
     = 1
  /\ dispatched
       (effectsOf (handleOrbClick env s)
          ++ effectsOf (handleOrbClick env (stateOf (handleOrbClick env s)))
          ++ effectsOf (handleEndAttached (appState (stateOf (handleOrbClick env s)))
                          (stateOf (handleOrbClick env (stateOf (handleOrbClick env s))))))
     = []
  /\ spoken
       (effectsOf (handleOrbClick env s)
          ++ effectsOf (handleOrbClick env (stateOf (handleOrbClick env s)))
          ++ effectsOf (handleEndAttached (appState (stateOf (handleOrbClick env s)))
                          (stateOf (handleOrbClick env (stateOf (handleOrbClick env s))))))
     = [].
Proof.
  intros Hi Hc Hr.
  rewrite (handleOrbClick_run env s), Hc, Hr, Hi. cbn [orb negb stateOf effectsOf fst snd].
  rewrite handleOrbClick_run. cbn [criticalError appState]. rewrite Hc, Hr.
  cbn [orb negb stateOf effectsOf fst snd].
  repeat split.
Qed.

Lemma start_stop_round_trip_witness :
  stateOf (handleEndAttached
             (appState (stateOf (handleOrbClick onlineEnv initialState)))
             (stateOf (handleOrbClick onlineEnv
                         (stateOf (handleOrbClick onlineEnv initialState)))))
  = initialState.
Proof.
  destruct (start_stop_round_trip onlineEnv initialState eq_refl eq_refl eq_refl)
    as (_ & _ & A & _).
  exact A.
Defined.

Lemma thinking_absorbs_quiet_events (env : Env) (evs : list Event) (s : UiState) :
  appState s = THINKING ->
  forallb quietEvent evs = true ->
  stateOf (runEvents env evs s) = s
  /\ spoken (effectsOf (runEvents env evs s)) = []
  /\ dispatched (effectsOf (runEvents env evs s)) = []
  /\ recognitionStarts (effectsOf (runEvents env evs s)) = 0.
Proof.
  intros Ht. induction evs as [| ev rest IH]; intros Hq; [now repeat split |].
  simpl in Hq. apply andb_true_iff in Hq as [Hq Hrest].
  assert (E : handleEvent env ev s = (Normal tt, s, [])
              \/ handleEvent env ev s = (Normal tt, s, [PreventDefault])).
  { destruct ev; try discriminate; simpl.
    - left. rewrite handleOrbClick_run, Ht.
      now destruct (truthyOpt (criticalError s) || negb (recognitionAvailable env)).
    - right. rewrite handleTextSubmit_run. unfold sendButtonDisabled, isDisabled.
      rewrite Ht. simpl. now rewrite orb_true_r. }
  rewrite runEvents_state_cons, runEvents_effects_cons.
  destruct E as [E | E]; rewrite E; cbn [stateOf effectsOf fst snd app];
    cbn [spoken dispatched recognitionStarts]; exact (IH Hrest).
Qed.

(** X9. No timeout.  When a command with the wake name arrives while the
    chat session exists, the browser is online and the remote call never
    settles, the machine is in Thinking with its controls disabled, the
    transcript ending with the user's command, and stays so through every
    sequence of orb clicks and form submissions: nothing is spoken and no
    second command is dispatched.  An "end" handler created by a render in
    Idle, Thinking or Speaking changes nothing either.  The "end" handler
    created by the render in Listening, which is the one attached when
    "end" follows "result" at once, puts the machine in Idle with the idle
    status text and, without a critical error, with its controls enabled,
    while the call is still pending. *)
Theorem unsettled_call_keeps_thinking (env : Env) (u : string) (evs : list Event)
        (s : UiState) :
  chatInitialised env = true ->
  onLine env = true ->
  startsWith (trim (toLowerCase u)) wakeWord = true ->
  trim (substringFrom (String.length wakeWord) (trim u)) <> EmptyString ->
  sendMessage env (trim (substringFrom (String.length wakeWord) (trim u))) = NeverSettles ->
  forallb quietEvent evs = true ->
  stateOf (runEvents env (RecognitionResult u :: evs) s)
  = mkUi THINKING "Thinking..."
         (transcript s
            ++ [mkItem user (trim (substringFrom (String.length wakeWord) (trim u)))])
         (speechRate s) (availableVoices s) (selectedVoiceURI s)
         (criticalError s) (textInput s)
  /\ isDisabled (stateOf (runEvents env (RecognitionResult u :: evs) s)) = true
  /\ spoken (effectsOf (runEvents env (RecognitionResult u :: evs) s)) = []
  /\ dispatched (effectsOf (runEvents env (RecognitionResult u :: evs) s))
     = [trim (substringFrom (String.length wakeWord) (trim u))]
  /\ (forall captured,
         captured <> LISTENING ->
         handleEndAttached captured (stateOf (runEvents env (RecognitionResult u :: evs) s))
         = (Normal tt, stateOf (runEvents env (RecognitionResult u :: evs) s), []))
  /\ stateOf (handleEndAttached LISTENING
                (stateOf (runEvents env (RecognitionResult u :: evs) s)))
     = mkUi IDLE idleStatus
            (transcript s
               ++ [mkItem user (trim (substringFrom (String.length wakeWord) (trim u)))])
            (speechRate s) (availableVoices s) (selectedVoiceURI s)
            (criticalError s) (textInput s)
  /\ (truthyOpt (criticalError s) = false ->
      isDisabled (stateOf (handleEndAttached LISTENING
                             (stateOf (runEvents env (RecognitionResult u :: evs) s))))
      = false).
Proof.
  intros Hc Ho Hw Ht Hs Hq.
  apply truthy_true in Ht.
  assert (R : spokenReply env (trim (substringFrom (String.length wakeWord) (trim u))) = None).
  { unfold spokenReply. now rewrite Hc, Ho, Hs. }
  assert (T : requestTrace env (trim (substringFrom (String.length wakeWord) (trim u)))
              = [SendMessage (trim (substringFrom (String.length wakeWord) (trim u)))]).
  { unfold requestTrace. now rewrite Hc, Ho, Hs. }
  rewrite runEvents_state_cons, runEvents_effects_cons. simpl handleEvent.
  rewrite handleResult_run, Hw, Ht, processCommand_run, R, T.
  cbn [stateOf effectsOf fst snd].
  destruct (thinking_absorbs_quiet_events env evs
              (afterPrologue (trim (substringFrom (String.length wakeWord) (trim u))) s)
              eq_refl Hq) as (A & B & C & _).
  rewrite A. cbn [app spoken dispatched]. rewrite B, C.
  unfold afterPrologue.
  split; [reflexivity |].
  split; [unfold isDisabled; simpl; now rewrite orb_true_r |].
  split; [reflexivity |]. split; [reflexivity |].
  split.
  { intros captured N. unfold handleEndAttached.
    destruct captured; try reflexivity. now elim N. }
  split; [reflexivity |].
  intros K. unfold isDisabled. simpl. now rewrite K.
Qed.

Lemma unsettled_call_keeps_thinking_witness :
  appState (stateOf (runEvents silentEnv
                       [RecognitionResult "bravio what time is it";
                        OrbClick; TextSubmit; OrbClick]
                       listeningTyped)) = THINKING
  /\ spoken (effectsOf (runEvents silentEnv
                          [RecognitionResult "bravio what time is it";
                           OrbClick; TextSubmit; OrbClick]
                          listeningTyped)) = []
  /\ appState (stateOf (handleEndAttached LISTENING
                          (stateOf (runEvents silentEnv
                                      [RecognitionResult "bravio what time is it";
                                       OrbClick; TextSubmit; OrbClick]
                                      listeningTyped)))) = IDLE.
Proof.
  assert (N : trim (substringFrom (String.length wakeWord) (trim "bravio what time is it"))
              <> EmptyString) by discriminate.
  destruct (unsettled_call_keeps_thinking silentEnv "bravio what time is it"
              [OrbClick; TextSubmit; OrbClick] listeningTyped
              eq_refl eq_refl eq_refl N eq_refl eq_refl) as (A & _ & B & _ & _ & C & _).
  rewrite C, A, B. repeat split.
Defined.

(* ================================================================== *)
(** ** The controls and what they are rendered as *)
(* ================================================================== *)

(** X10. The form submits exactly when the send button is rendered
    enabled.  When it is disabled (a critical error, Thinking, Speaking, or
    a text box that is blank once trimmed) a submission changes nothing
    and dispatches nothing.  When it is enabled, the trimmed text, which
    is not empty, is dispatched once, it is the user entry added to the
    transcript, and the text box is emptied. *)
Theorem text_submit_matches_send_button (env : Env) (s : UiState) :
  (sendButtonDisabled s = true ->
   handleTextSubmit env s = (Normal tt, s, [PreventDefault]))
  /\ (sendButtonDisabled s = false ->
      dispatched (effectsOf (handleTextSubmit env s)) = [trim (textInput s)]
      /\ trim (textInput s) <> EmptyString
      /\ textInput (stateOf (handleTextSubmit env s)) = EmptyString
      /\ nth_error (transcript (stateOf (handleTextSubmit env s)))
                   (List.length (transcript s))
         = Some (mkItem user (trim (textInput s)))
      /\ (appState s = IDLE \/ appState s = LISTENING)).
Proof.
  split; intros H; rewrite handleTextSubmit_run, H; [reflexivity |].
  unfold sendButtonDisabled in H. apply orb_false_iff in H as [Hd Ht].
  apply negb_false_iff in Ht.
  project. rewrite processCommand_dispatched, processCommand_state.
  repeat split.
  - now apply truthy_true.
  - destruct (spokenReply env (trim (textInput s))); project;
      rewrite <- ?app_assoc; rewrite nth_error_app2 by lia;
      now rewrite Nat.sub_diag.
  - unfold isDisabled in Hd. destruct (appState s); auto;
      simpl in Hd; rewrite ?orb_true_r in Hd; discriminate.
Qed.

Lemma text_submit_matches_send_button_witness :
  sendButtonDisabled listeningTyped = false
  /\ dispatched (effectsOf (handleTextSubmit offlineEnv listeningTyped)) = ["what time is it"]
  /\ sendButtonDisabled initialState = true
  /\ handleTextSubmit offlineEnv initialState = (Normal tt, initialState, [PreventDefault]).
Proof.
  destruct (text_submit_matches_send_button offlineEnv listeningTyped) as [_ A].
  destruct (A eq_refl) as (A1 & _).
  destruct (text_submit_matches_send_button offlineEnv initialState) as [B _].
  split; [reflexivity |]. split; [exact A1 |]. split; [reflexivity |].
  exact (B eq_refl).
Defined.

(** X11. The orb does what its label says, and only when it is rendered
    enabled.  Disabled (a critical error, Thinking, Speaking), a click
    changes nothing.  Enabled, with recognition available: labelled
    "Start listening" it plays the cue, starts recognition and enters
    Listening; labelled "Stop listening" it asks recognition to stop and
    leaves the state to the "end" event. *)
Theorem orb_click_matches_label (env : Env) (s : UiState) :
  (isDisabled s = true -> handleOrbClick env s = (Normal tt, s, []))
  /\ (isDisabled s = false -> recognitionAvailable env = true ->
      (orbAriaLabel s = "Start listening" ->
       handleOrbClick env s
       = (Normal tt,
          mkUi LISTENING "Listening..." (transcript s) (speechRate s) (availableVoices s)
               (selectedVoiceURI s) (criticalError s) (textInput s),
          [StartSound; RecognitionStart]))
      /\ (orbAriaLabel s = "Stop listening" ->
          handleOrbClick env s = (Normal tt, s, [RecognitionStop])
          /\ handleEnd s
             = (Normal tt,
                mkUi IDLE idleStatus (transcript s) (speechRate s) (availableVoices s)
                     (selectedVoiceURI s) (criticalError s) (textInput s), []))).
Proof.
  rewrite handleOrbClick_run, handleEnd_run. unfold isDisabled, orbAriaLabel.
  destruct (truthyOpt (criticalError s)); simpl.
  - split; [reflexivity | discriminate].
  - destruct (appState s); simpl; split;
      try discriminate; try (intros _; now destruct (negb (recognitionAvailable env)));
      intros _ ->; simpl; split; try discriminate; try reflexivity;
      intros _; split; reflexivity.
Qed.

Lemma orb_click_matches_label_witness :
  orbAriaLabel listeningState = "Stop listening"
  /\ handleOrbClick onlineEnv listeningState = (Normal tt, listeningState, [RecognitionStop])
  /\ orbAriaLabel initialState = "Start listening"
  /\ effectsOf (handleOrbClick onlineEnv initialState) = [StartSound; RecognitionStart].
Proof.
  destruct (orb_click_matches_label onlineEnv listeningState) as [_ A].
  destruct (A eq_refl eq_refl) as [_ A2]. destruct (A2 eq_refl) as [A3 _].
  destruct (orb_click_matches_label onlineEnv initialState) as [_ B].
  destruct (B eq_refl eq_refl) as [B1 _].
  split; [reflexivity |]. split; [exact A3 |]. split; [reflexivity |].
  rewrite (B1 eq_refl). reflexivity.
Defined.

(* ================================================================== *)
(** ** Voices *)
(* ================================================================== *)

Lemma findVoice_head (v : Voice) (rest : list Voice) :
  findVoice (v :: rest) (Some (voiceURI v)) = Some v.
Proof. simpl. now rewrite String.eqb_refl. Qed.

(** X12. Loading the voices.  Afterwards the available voices are the
    platform's voices whose language tag starts with "en", all of them and
    in the platform's order; no cell but the available voices and the
    selection changes, and nothing is called.  A selection already made is
    kept.  With no selection (null or the empty
    string) and at least one English voice, the first English voice is
    selected and is the voice of the next utterance. *)
Theorem loadVoices_english_default (voices : list Voice) (s : UiState) :
  availableVoices (stateOf (loadVoices voices s))
  = filter (fun v => startsWith (lang v) "en") voices
  /\ (forall v, In v (availableVoices (stateOf (loadVoices voices s)))
                <-> In v voices /\ startsWith (lang v) "en" = true)
  /\ (truthyOpt (selectedVoiceURI s) = true ->
      selectedVoiceURI (stateOf (loadVoices voices s)) = selectedVoiceURI s)
  /\ (truthyOpt (selectedVoiceURI s) = false ->
      forall first rest,
        availableVoices (stateOf (loadVoices voices s)) = first :: rest ->
        selectedVoiceURI (stateOf (loadVoices voices s)) = Some (voiceURI first)
        /\ forall t a,
            utterances (effectsOf (speakAndDisplay t a (stateOf (loadVoices voices s))))
            = [mkUtterance t (Some first) (speechRate s)])
  /\ (availableVoices (stateOf (loadVoices voices s)) = [] ->
      selectedVoiceURI (stateOf (loadVoices voices s)) = selectedVoiceURI s)
  /\ appState (stateOf (loadVoices voices s)) = appState s
  /\ statusText (stateOf (loadVoices voices s)) = statusText s
  /\ transcript (stateOf (loadVoices voices s)) = transcript s
  /\ speechRate (stateOf (loadVoices voices s)) = speechRate s
  /\ criticalError (stateOf (loadVoices voices s)) = criticalError s
  /\ textInput (stateOf (loadVoices voices s)) = textInput s
  /\ resultOf (loadVoices voices s) = Normal tt
  /\ effectsOf (loadVoices voices s) = [].
Proof.
  rewrite loadVoices_run. project.
  split; [reflexivity |].
  split; [intros v; apply filter_In |].
  split.
  { intros H. rewrite H.
    now destruct (filter (fun v => startsWith (lang v) "en") voices). }
  split.
  { intros H first rest E. rewrite E, H. split; [reflexivity |].
    intros t a. rewrite speakAndDisplay_run. project.
    unfold utteranceFor. project. now rewrite findVoice_head. }
  split.
  { now intros ->. }
  repeat split.
Qed.

Lemma loadVoices_english_default_witness :
  truthyOpt (selectedVoiceURI initialState) = false
  /\ selectedVoiceURI (stateOf (loadVoices sampleVoices initialState)) = Some "en-daniel"
  /\ utterances (effectsOf (speakAndDisplay "Hello." assistant
                              (stateOf (loadVoices sampleVoices initialState))))
     = [mkUtterance "Hello." (Some (mkVoice "en-daniel" "Daniel" "en-GB"))
                    (speechRate initialState)].
Proof.
  split; [reflexivity |].
  destruct (loadVoices_english_default sampleVoices initialState)
    as (_ & _ & _ & A & _).
  destruct (A eq_refl (mkVoice "en-daniel" "Daniel" "en-GB")
              [mkVoice "en-samantha" "Samantha" "en-US"] eq_refl) as [A1 A2].
  split; [exact A1 | exact (A2 "Hello." assistant)].
Defined.

(** X13. Loading the same voices again changes nothing.  The effect that
    loads them runs again when its own write to the selected voice takes
    effect; this second run leaves the state as it is. *)
Theorem loadVoices_idempotent (voices : list Voice) (s : UiState) :
  loadVoices voices (stateOf (loadVoices voices s))
  = (Normal tt, stateOf (loadVoices voices s), []).
Proof.
  rewrite (loadVoices_run voices s). cbn [stateOf fst snd].
  rewrite loadVoices_run. project.
  destruct (filter (fun voice => startsWith (lang voice) "en") voices) as [| first rest];
    [reflexivity |].
  destruct (truthyOpt (selectedVoiceURI s)) eqn:E; [now rewrite E |].
  cbn [truthyOpt]. now destruct (truthy (voiceURI first)).
Qed.

(** X14. Choosing a voice.  A write to the selected voice makes the
    voices effect run again (it depends on the selection), so what the
    next utterance uses is fixed by [handleVoiceChange] followed by
    [loadVoices] on the platform's voices.  For a URI that is not empty the
    selection is that URI and the utterance uses the first English voice
    that has it, the platform's default voice when no English voice has it.
    For the empty URI the selection falls back to the first English voice,
    which the utterance uses; with no English voice the utterance has the
    default voice.  After [handleRateChange] the utterance carries the new
    rate. *)
Theorem voice_choice_round_trip (voices : list Voice) (value t : string) (a : Author)
        (parsed : Rate) (s : UiState) :
  (value <> EmptyString ->
   selectedVoiceURI (stateOf (loadVoices voices (stateOf (handleVoiceChange value s))))
   = Some value
   /\ (forall v,
          find (fun x => String.eqb (voiceURI x) value)
               (filter (fun x => startsWith (lang x) "en") voices) = Some v ->
          In v voices /\ startsWith (lang v) "en" = true /\ voiceURI v = value
          /\ utterances (effectsOf (speakAndDisplay t a
                 (stateOf (loadVoices voices (stateOf (handleVoiceChange value s))))))
             = [mkUtterance t (Some v) (speechRate s)])
   /\ ((forall v, In v voices -> startsWith (lang v) "en" = true -> voiceURI v <> value) ->
       utterances (effectsOf (speakAndDisplay t a
              (stateOf (loadVoices voices (stateOf (handleVoiceChange value s))))))
       = [mkUtterance t None (speechRate s)]))
  /\ (value = EmptyString ->
      (forall first rest,
          filter (fun x => startsWith (lang x) "en") voices = first :: rest ->
          selectedVoiceURI (stateOf (loadVoices voices (stateOf (handleVoiceChange value s))))
          = Some (voiceURI first)
          /\ utterances (effectsOf (speakAndDisplay t a
                 (stateOf (loadVoices voices (stateOf (handleVoiceChange value s))))))
             = [mkUtterance t (Some first) (speechRate s)])
      /\ (filter (fun x => startsWith (lang x) "en") voices = [] ->
          utterances (effectsOf (speakAndDisplay t a
                 (stateOf (loadVoices voices (stateOf (handleVoiceChange value s))))))
          = [mkUtterance t None (speechRate s)]))
  /\ utterances (effectsOf (speakAndDisplay t a (stateOf (handleRateChange parsed s))))
     = [mkUtterance t (findVoice (availableVoices s) (selectedVoiceURI s)) parsed].
Proof.
  rewrite !speakAndDisplay_run, loadVoices_run.
  unfold handleVoiceChange, handleRateChange, setSelectedVoiceURI, setSpeechRate, modify,
    utteranceFor.
  project. cbn [truthyOpt].
  split; [| split].
  - intros N. apply truthy_true in N. rewrite N.
    assert (E : match filter (fun voice => startsWith (lang voice) "en") voices with
                | [] => Some value
                | _ :: _ => Some value
                end = Some value)
      by (now destruct (filter (fun voice => startsWith (lang voice) "en") voices)).
    rewrite E. cbn [findVoice].
    split; [reflexivity |]. split.
    + intros v F. rewrite F.
      destruct (find_some _ _ F) as [I Q]. apply String.eqb_eq in Q.
      apply filter_In in I as [I1 I2]. now repeat split.
    + intros K.
      destruct (find (fun x => String.eqb (voiceURI x) value)
                     (filter (fun voice => startsWith (lang voice) "en") voices))
        as [v |] eqn:F; [| reflexivity].
      destruct (find_some _ _ F) as [I Q]. apply String.eqb_eq in Q.
      apply filter_In in I as [I1 I2]. now elim (K v I1 I2).
  - intros ->. cbn [truthy]. split.
    + intros first rest E. rewrite E. split; [reflexivity |].
      now rewrite findVoice_head.
    + intros E. rewrite E. reflexivity.
  - reflexivity.
Qed.

Lemma voice_choice_round_trip_witness :
  utterances (effectsOf (speakAndDisplay "Hello." assistant
                           (stateOf (loadVoices sampleVoices
                                       (stateOf (handleVoiceChange "en-samantha"
                                                   initialState))))))
  = [mkUtterance "Hello." (Some (mkVoice "en-samantha" "Samantha" "en-US"))
                 (speechRate initialState)].
Proof.
  destruct (voice_choice_round_trip sampleVoices "en-samantha" "Hello." assistant
              (speechRate initialState) initialState) as (A & _).
  assert (N : "en-samantha" <> EmptyString) by discriminate.
  destruct (A N) as (_ & B & _).
  destruct (B (mkVoice "en-samantha" "Samantha" "en-US") eq_refl) as (_ & _ & _ & C).
  exact C.
Defined.

(* ================================================================== *)
(** ** Mounting *)
(* ================================================================== *)

(** X15. Mounting never throws and ends in one of two ways.  With
    recognition present, a non-empty API key and a chat that could be
    created, the chat reference is set and the state is untouched.
    Otherwise the chat reference stays null and a critical error is set:
    the unsupported-browser message when recognition is missing (whatever
    the key), else the missing-key message when the key is absent or empty,
    else the connection message; from then on the controls are disabled and
    the orb and the form do nothing, so that [processCommand] is not
    reached from them without a chat. *)
Theorem initialise_chat_or_critical (recognitionPresent : bool) (API_KEY : option string)
        (createChat : option JsThrown) (s : UiState) :
  (recognitionPresent = true -> truthyOpt API_KEY = true -> createChat = None ->
   initialise recognitionPresent API_KEY createChat s = (Normal true, s, []))
  /\ (recognitionPresent = false \/ truthyOpt API_KEY = false \/ createChat <> None ->
      resultOf (initialise recognitionPresent API_KEY createChat s) = Normal false
      /\ isDisabled (stateOf (initialise recognitionPresent API_KEY createChat s)) = true
      /\ forall env,
          handleOrbClick env (stateOf (initialise recognitionPresent API_KEY createChat s))
          = (Normal tt, stateOf (initialise recognitionPresent API_KEY createChat s), [])
          /\ handleTextSubmit env
               (stateOf (initialise recognitionPresent API_KEY createChat s))
             = (Normal tt, stateOf (initialise recognitionPresent API_KEY createChat s),
                [PreventDefault]))
  /\ (recognitionPresent = false ->
      criticalError (stateOf (initialise recognitionPresent API_KEY createChat s))
      = Some unsupportedBrowserMessage)
  /\ (recognitionPresent = true -> truthyOpt API_KEY = false ->
      criticalError (stateOf (initialise recognitionPresent API_KEY createChat s))
      = Some missingKeyMessage)
  /\ (recognitionPresent = true -> truthyOpt API_KEY = true -> createChat <> None ->
      criticalError (stateOf (initialise recognitionPresent API_KEY createChat s))
      = Some connectFailedMessage).
Proof.
  assert (F : recognitionPresent = false \/ truthyOpt API_KEY = false \/ createChat <> None ->
              resultOf (initialise recognitionPresent API_KEY createChat s) = Normal false
              /\ truthyOpt (criticalError
                              (stateOf (initialise recognitionPresent API_KEY createChat s)))
                 = true).
  { unfold initialise.
    destruct recognitionPresent; simpl; [| now split].
    destruct (truthyOpt API_KEY); simpl; [| now split].
    destruct createChat as [e |]; simpl; [now split |].
    intros [H | [H | H]]; try discriminate. now elim H. }
  split; [| split; [| split; [| split]]].
  - intros -> Hk ->. unfold initialise. cbn [negb]. now rewrite Hk.
  - intros H. destruct (F H) as [R C]. split; [exact R |].
    split; [now apply isDisabled_critical |].
    intros env. split.
    + rewrite handleOrbClick_run, C. reflexivity.
    + rewrite handleTextSubmit_run. unfold sendButtonDisabled.
      now rewrite (isDisabled_critical _ C).
  - intros ->. reflexivity.
  - intros -> H. unfold initialise. cbn [negb]. now rewrite H.
  - intros -> H N. unfold initialise. cbn [negb]. rewrite H. cbn [negb].
    destruct createChat; [reflexivity | now elim N].
Qed.

Lemma initialise_chat_or_critical_witness :
  initialise true (Some "key") None initialState = (Normal true, initialState, [])
  /\ resultOf (initialise true (Some "") None initialState) = Normal false
  /\ criticalError (stateOf (initialise true (Some "") None initialState))
     = Some missingKeyMessage
  /\ criticalError (stateOf (initialise false None (Some NonError) initialState))
     = Some unsupportedBrowserMessage.
Proof.
  destruct (initialise_chat_or_critical true (Some "key") None initialState) as (A & _).
  destruct (initialise_chat_or_critical true (Some "") None initialState)
    as (_ & B & _ & C & _).
  destruct (initialise_chat_or_critical false None (Some NonError) initialState)
    as (_ & _ & D & _).
  destruct (B (or_intror (or_introl eq_refl))) as [B1 _].
  split; [exact (A eq_refl eq_refl eq_refl) |].
  split; [exact B1 |].
  split; [exact (C eq_refl eq_refl) | exact (D eq_refl)].
Defined.

(* ================================================================== *)
(** ** What reaches the dispatcher *)
(* ================================================================== *)

(** X16. Whatever the event, in whatever state, every command that enters
    [processCommand] is not empty and is already trimmed: both callers,
    [handleResult] and [handleTextSubmit], trim and test before they
    call. *)
Theorem dispatched_commands_well_formed (env : Env) (ev : Event) (s : UiState) :
  Forall (fun c => c <> EmptyString /\ trim c = c)
         (dispatched (effectsOf (handleEvent env ev s))).
Proof.
  event_cases env ev s; project;
    rewrite ?processCommand_dispatched; try apply Forall_nil.
  - apply Forall_cons; [| apply Forall_nil].
    unfold sendButtonDisabled in *.
    match goal with
    | H : _ || _ = false |- _ => apply orb_false_iff in H as [_ H];
                                 apply negb_false_iff in H
    end.
    split; [now apply truthy_true | apply trim_idempotent].
  - apply Forall_cons; [| apply Forall_nil].
    split; [now apply truthy_true | apply trim_idempotent].
Qed.

(** X17. White space around the recognised utterance does not matter:
    an utterance and its trimmed form are handled identically, in state,
    effects and result, whether a command is dispatched, the prompt is
    spoken or the reminder is. *)
Theorem handleResult_ignores_padding (env : Env) (u : string) (s : UiState) :
  handleResult env (trim u) s = handleResult env u s.
Proof.
  unfold handleResult.
  now rewrite <- (trim_toLowerCase u), !trim_idempotent.
Qed.

Lemma trimEnd_cons_nonws (c : ascii) (x : string) :
  isWhiteSpace c = false -> trimEnd (String c x) = String c (trimEnd x).
Proof.
  intros H. simpl. destruct (trimEnd x); [now rewrite H | reflexivity].
Qed.

Lemma trimStart_trimEnd (s : string) : trimStart (trimEnd s) = trimEnd (trimStart s).
Proof.
  induction s as [| c r IH]; [reflexivity |].
  destruct (isWhiteSpace c) eqn:W.
  - change (trimStart (String c r)) with (if isWhiteSpace c then trimStart r else String c r).
    rewrite W, <- IH. simpl.
    destruct (trimEnd r) as [| d r']; [now rewrite W |].
    simpl. now rewrite W.
  - rewrite (trimEnd_cons_nonws c r W). simpl. rewrite W.
    symmetry. apply (trimEnd_cons_nonws c r W).
Qed.

Lemma trim_trimEnd (s : string) : trim (trimEnd s) = trim s.
Proof.
  unfold trim. now rewrite trimStart_trimEnd, trimEnd_idempotent.
Qed.

Lemma toLowerCase_app (a b : string) :
  toLowerCase (a ++ b) = (toLowerCase a ++ toLowerCase b)%string.
Proof.
  induction a as [| c r IH]; simpl; [reflexivity | now rewrite IH].
Qed.

Lemma nonws_of_lower (c d : ascii) :
  toLowerChar c = d -> isWhiteSpace d = false -> isWhiteSpace c = false.
Proof. intros <-. now rewrite isWhiteSpace_toLowerChar. Qed.

(** A spelling of the wake name, in any case, in front of any text: what
    [trim] and [substring] make of it. *)
Lemma wake_spelling_prefix (w r : string) :
  toLowerCase w = wakeWord ->
  trim (w ++ r) = (w ++ trimEnd r)%string
  /\ substringFrom (String.length wakeWord) (w ++ trimEnd r) = trimEnd r.
Proof.
  intros H.
  destruct w as [| c1 [| c2 [| c3 [| c4 [| c5 [| c6 [| c7 w]]]]]]]; try discriminate.
  injection H as H1 H2 H3 H4 H5 H6.
  pose proof (nonws_of_lower _ _ H1 eq_refl) as W1.
  pose proof (nonws_of_lower _ _ H2 eq_refl) as W2.
  pose proof (nonws_of_lower _ _ H3 eq_refl) as W3.
  pose proof (nonws_of_lower _ _ H4 eq_refl) as W4.
  pose proof (nonws_of_lower _ _ H5 eq_refl) as W5.
  pose proof (nonws_of_lower _ _ H6 eq_refl) as W6.
  split; [| reflexivity].
  unfold trim. cbn [append trimStart]. rewrite W1.
  now rewrite !trimEnd_cons_nonws by assumption.
Qed.

(** X18. No separator is needed after the wake name.  For any spelling of
    the wake name (any mix of upper and lower case) followed directly by
    any text, the command dispatched is that text trimmed, even when the
    text continues the word; when the text is blank the listening prompt is
    spoken and nothing is dispatched. *)
Theorem wake_name_needs_no_separator (env : Env) (w r : string) (s : UiState) :
  toLowerCase w = wakeWord ->
  (trim r <> EmptyString ->
   dispatched (effectsOf (handleResult env (w ++ r) s)) = [trim r])
  /\ (trim r = EmptyString ->
      dispatched (effectsOf (handleResult env (w ++ r) s)) = []
      /\ spoken (effectsOf (handleResult env (w ++ r) s)) = [listeningPrompt]).
Proof.
  intros H.
  destruct (wake_spelling_prefix w r H) as [T S].
  assert (P : startsWith (trim (toLowerCase (w ++ r))) wakeWord = true).
  { rewrite trim_toLowerCase, T, toLowerCase_app, H.
    now destruct (toLowerCase (trimEnd r)). }
  rewrite handleResult_run, P, T, S, trim_trimEnd.
  split.
  - intros N. apply truthy_true in N. rewrite N. project.
    apply processCommand_dispatched.
  - intros E. rewrite E. cbn [truthy]. rewrite speakAndDisplay_run. now split.
Qed.

Lemma wake_name_needs_no_separator_witness :
  toLowerCase "BRAVIO" = wakeWord
  /\ dispatched (effectsOf (handleResult onlineEnv "BRAVIOso play music " listeningState))
     = ["so play music"].
Proof.
  split; [reflexivity |].
  destruct (wake_name_needs_no_separator onlineEnv "BRAVIO" "so play music " listeningState
              eq_refl) as [A _].
  apply A. discriminate.
Defined.

(* ================================================================== *)
(** ** Two more whole interactions *)
(* ================================================================== *)

(** X19. A whole typed command.  From Idle with no critical error: a text
    that is not blank is typed and submitted, and the utterance completes.
    If the remote call settles or is not made, the machine is back in Idle
    with the idle status text, the text box is empty, the transcript has
    grown by the trimmed text and the one message spoken, and recognition
    was never started. *)
Theorem text_command_cycle (env : Env) (t : string) (s : UiState) :
  appState s = IDLE ->
  truthyOpt (criticalError s) = false ->
  trim t <> EmptyString ->
  (chatInitialised env = true -> onLine env = true ->
   sendMessage env (trim t) <> NeverSettles) ->
  exists m,
    stateOf (runEvents env [TextChange t; TextSubmit; UtteranceEnd] s)
    = mkUi IDLE idleStatus
           (transcript s ++ [mkItem user (trim t); mkItem assistant m])
           (speechRate s) (availableVoices s) (selectedVoiceURI s)
           (criticalError s) EmptyString
    /\ spoken (effectsOf (runEvents env [TextChange t; TextSubmit; UtteranceEnd] s)) = [m]
    /\ dispatched (effectsOf (runEvents env [TextChange t; TextSubmit; UtteranceEnd] s))
       = [trim t]
    /\ recognitionStarts (effectsOf (runEvents env [TextChange t; TextSubmit; UtteranceEnd] s))
       = 0.
Proof.
  intros Hi Hc Ht Hs.
  destruct (spokenReply_settles env _ Hs) as [m Hm].
  exists m.
  apply truthy_true in Ht.
  rewrite !runEvents_effects_cons, !runEvents_state_cons.
  simpl handleEvent.
  unfold handleTextChange, setTextInput, modify. cbn [stateOf effectsOf fst snd].
  rewrite handleTextSubmit_run.
  unfold sendButtonDisabled, isDisabled. cbn [criticalError appState textInput].
  rewrite Hc, Hi, Ht. cbn [orb negb AppState_eqb].
  rewrite processCommand_run, Hm.
  unfold utteranceEnd, bind, setAppState, setStatusText, modify, afterSpeak, afterPrologue.
  cbn [stateOf effectsOf fst snd appState statusText transcript speechRate availableVoices
       selectedVoiceURI criticalError textInput app runEvents ret].
  rewrite <- app_assoc. cbn [app]. rewrite !app_nil_r.
  cbn [spoken dispatched recognitionStarts].
  match goal with
  | |- context [requestTrace env (trim t) ++ ?tail] =>
      destruct (requestTrace_silent env (trim t) tail) as (Q1 & Q2 & Q3)
  end.
  rewrite Q1, Q2, Q3. repeat split.
Qed.

Lemma text_command_cycle_witness :
  stateOf (runEvents blankEnv [TextChange "  hello "; TextSubmit; UtteranceEnd] initialState)
  = mkUi IDLE idleStatus
         [mkItem user "hello"; mkItem assistant emptyResponseMessage]
         (speechRate initialState) [] None None "".
Proof.
  assert (N : trim "  hello " <> EmptyString) by discriminate.
  assert (S : chatInitialised blankEnv = true -> onLine blankEnv = true ->
              sendMessage blankEnv (trim "  hello ") <> NeverSettles)
    by (intros _ _; discriminate).
  destruct (text_command_cycle blankEnv "  hello " initialState eq_refl eq_refl N S)
    as (m & A & B & _).
  rewrite A. clear A.
  assert (E : m = emptyResponseMessage) by (now injection B as <-).
  rewrite E. reflexivity.
Defined.

(** X20. A recoverable recognition error.  For every error code other than
    the two permission codes, from any state: the error is answered with
    one spoken and transcribed message, and once recognition has ended and
    the utterance has completed the machine is in Idle with the idle status
    text, the critical error and every other cell being what they were. *)
Theorem recognition_error_cycle (env : Env) (code : string) (s : UiState) :
  code <> "not-allowed" ->
  code <> "service-not-allowed" ->
  exists m,
    m <> EmptyString
    /\ stateOf (runEvents env [RecognitionError code; RecognitionEnd; UtteranceEnd] s)
       = mkUi IDLE idleStatus (transcript s ++ [mkItem assistant m])
              (speechRate s) (availableVoices s) (selectedVoiceURI s)
              (criticalError s) (textInput s)
    /\ spoken (effectsOf (runEvents env [RecognitionError code; RecognitionEnd; UtteranceEnd] s))
       = [m]
    /\ dispatched (effectsOf (runEvents env
                                [RecognitionError code; RecognitionEnd; UtteranceEnd] s))
       = [].
Proof.
  intros N1 N2.
  destruct (errorMessageFor code) as [m |] eqn:E.
  2:{ apply errorMessageFor_none in E. destruct E; contradiction. }
  exists m. split; [apply truthy_true; now apply (errorMessageFor_truthy code) |].
  rewrite !runEvents_effects_cons, !runEvents_state_cons.
  simpl handleEvent. rewrite handleError_run, E. cbn [stateOf effectsOf fst snd].
  rewrite handleEnd_run. unfold afterSpeak at 1 2 3. cbn [appState AppState_eqb].
  destruct (leaveListening_fields s) as (F1 & F2 & F3 & F4 & F5 & F6 & F7).
  unfold utteranceEnd, bind, setAppState, setStatusText, modify, afterSpeak.
  cbn [stateOf effectsOf fst snd appState statusText transcript speechRate availableVoices
       selectedVoiceURI criticalError textInput app runEvents ret].
  rewrite F1, F3, F4, F5, F6, F7. repeat split.
Qed.

Lemma recognition_error_cycle_witness :
  stateOf (runEvents onlineEnv [RecognitionError "no-speech"; RecognitionEnd; UtteranceEnd]
                     listeningState)
  = mkUi IDLE idleStatus [mkItem assistant noSpeechMessage]
         (speechRate initialState) [] None None "".
Proof.
  assert (N1 : "no-speech" <> "not-allowed") by discriminate.
  assert (N2 : "no-speech" <> "service-not-allowed") by discriminate.
  destruct (recognition_error_cycle onlineEnv "no-speech" listeningState N1 N2)
    as (m & _ & A & B & _).
  rewrite A. clear A.
  assert (E : m = noSpeechMessage) by (now injection B as <-).
  rewrite E. reflexivity.
Defined.
